(** * RokoT BLE-MIDI: a shallow embedding of [rokot_ble_midi.c]

    The development follows the library source (the revision with the
    Battery and Device Information services): the file-scope state
    [ble_midi_state], the advertising data, the BLE-MIDI packet codec, the
    ATT write callback, the HCI event handler and the public API.

    Machine integers are modelled as [Z] with the wrap-around of each C
    conversion written out ([u8], [u16]); byte buffers are [list Z] indexed
    with stdpp's lookup and insert.  The code runs in a small state-and-trace
    monad: the state is the file's static storage, the trace records every
    call made into the Bluetooth stack and every invocation of the receive
    callback. *)

From Stdlib Require Import ZArith Lia.
From stdpp Require Import base tactics option list.

Local Open Scope Z_scope.

(** ** Machine integers *)

Definition u8 (x : Z) : Z := x mod 256.
Definition u16 (x : Z) : Z := x mod 65536.

(** ** Constants *)

(** From [rokot_ble_midi.h]. *)
Definition ROKOT_BLE_MIDI_CONN_INTERVAL_MIN : Z := 6.
Definition ROKOT_BLE_MIDI_CONN_INTERVAL_MAX : Z := 12.
(** "RokoT" and "1.0.0" as C strings (bytes before the terminator). *)
Definition ROKOT_BLE_MIDI_MANUFACTURER : list Z := [82; 111; 107; 111; 84].
Definition ROKOT_BLE_MIDI_FIRMWARE_VERSION : list Z := [49; 46; 48; 46; 48].

Definition MIDI_NOTE_OFF : Z := 0x80.
Definition MIDI_NOTE_ON : Z := 0x90.
Definition MIDI_POLY_PRESSURE : Z := 0xA0.
Definition MIDI_CONTROL_CHANGE : Z := 0xB0.
Definition MIDI_PROGRAM_CHANGE : Z := 0xC0.
Definition MIDI_CHANNEL_PRESSURE : Z := 0xD0.
Definition MIDI_PITCH_BEND : Z := 0xE0.

Inductive rokot_ble_midi_state_t : Set :=
  | ROKOT_BLE_MIDI_DISCONNECTED
  | ROKOT_BLE_MIDI_CONNECTED
  | ROKOT_BLE_MIDI_READY.

(** The enumerators as the integers the C enum assigns them. *)
Definition rokot_ble_midi_state_code (st : rokot_ble_midi_state_t) : Z :=
  match st with
  | ROKOT_BLE_MIDI_DISCONNECTED => 0
  | ROKOT_BLE_MIDI_CONNECTED => 1
  | ROKOT_BLE_MIDI_READY => 2
  end.

(** From the Bluetooth stack's headers (BTstack [bluetooth.h],
    [bluetooth_data_types.h], [hci_cmd.h]). *)
Definition HCI_CON_HANDLE_INVALID : Z := 0xffff.
Definition GATT_CLIENT_CHARACTERISTICS_CONFIGURATION_NOTIFICATION : Z := 1.
Definition BLUETOOTH_DATA_TYPE_FLAGS : Z := 0x01.
Definition BLUETOOTH_DATA_TYPE_COMPLETE_LIST_OF_128_BIT_SERVICE_CLASS_UUIDS : Z := 0x07.
Definition BLUETOOTH_DATA_TYPE_COMPLETE_LOCAL_NAME : Z := 0x09.
Definition HCI_EVENT_PACKET : Z := 0x04.
Definition HCI_STATE_WORKING : Z := 2.
Definition HCI_POWER_OFF : Z := 0.
Definition HCI_POWER_ON : Z := 1.

Definition APP_AD_FLAGS : Z := 0x06.

(** ** Static storage *)

(** A receive callback is a C function pointer: [None] is [NULL],
    [Some f] the function registered by the application. *)
Definition rokot_ble_midi_callback_t : Type := option nat.

(** The fields of [ble_midi_state], followed by the two other file-scope
    statics the code writes, [scan_resp_data] and [scan_resp_data_len].
    The character arrays hold C strings and are kept as the bytes before
    the terminator. *)
Record statics : Type := mk_statics {
  con_handle : Z;
  notifications_enabled : bool;
  battery_notifications_enabled : bool;
  connection_interval : Z;
  rx_callback : rokot_ble_midi_callback_t;
  hci_event_callback_registration : bool;
  device_name : list Z;
  manufacturer : list Z;
  firmware_version : list Z;
  battery_level : Z;
  initialized : bool;
  scan_resp_data : list Z;
  scan_resp_data_len : Z
}.

(** The initializer of [ble_midi_state]; fields it leaves out are zeroed,
    as are the 32 bytes of [scan_resp_data]. *)
Definition ble_midi_state : statics := {|
  con_handle := HCI_CON_HANDLE_INVALID;
  notifications_enabled := false;
  battery_notifications_enabled := false;
  connection_interval := 0;
  rx_callback := None;
  hci_event_callback_registration := false;
  device_name := [];
  manufacturer := ROKOT_BLE_MIDI_MANUFACTURER;
  firmware_version := ROKOT_BLE_MIDI_FIRMWARE_VERSION;
  battery_level := 100;
  initialized := false;
  scan_resp_data := replicate 32 0;
  scan_resp_data_len := 0
|}.

Definition set_con_handle (v : Z) (s : statics) : statics :=
  mk_statics v (notifications_enabled s) (battery_notifications_enabled s)
    (connection_interval s) (rx_callback s) (hci_event_callback_registration s)
    (device_name s) (manufacturer s) (firmware_version s) (battery_level s)
    (initialized s) (scan_resp_data s) (scan_resp_data_len s).

Definition set_notifications_enabled (v : bool) (s : statics) : statics :=
  mk_statics (con_handle s) v (battery_notifications_enabled s)
    (connection_interval s) (rx_callback s) (hci_event_callback_registration s)
    (device_name s) (manufacturer s) (firmware_version s) (battery_level s)
    (initialized s) (scan_resp_data s) (scan_resp_data_len s).

Definition set_battery_notifications_enabled (v : bool) (s : statics) : statics :=
  mk_statics (con_handle s) (notifications_enabled s) v
    (connection_interval s) (rx_callback s) (hci_event_callback_registration s)
    (device_name s) (manufacturer s) (firmware_version s) (battery_level s)
    (initialized s) (scan_resp_data s) (scan_resp_data_len s).

Definition set_connection_interval (v : Z) (s : statics) : statics :=
  mk_statics (con_handle s) (notifications_enabled s)
    (battery_notifications_enabled s) v (rx_callback s)
    (hci_event_callback_registration s)
    (device_name s) (manufacturer s) (firmware_version s) (battery_level s)
    (initialized s) (scan_resp_data s) (scan_resp_data_len s).

Definition set_rx_callback (v : rokot_ble_midi_callback_t) (s : statics) : statics :=
  mk_statics (con_handle s) (notifications_enabled s)
    (battery_notifications_enabled s) (connection_interval s) v
    (hci_event_callback_registration s)
    (device_name s) (manufacturer s) (firmware_version s) (battery_level s)
    (initialized s) (scan_resp_data s) (scan_resp_data_len s).

Definition set_hci_event_callback_registration (v : bool) (s : statics) : statics :=
  mk_statics (con_handle s) (notifications_enabled s)
    (battery_notifications_enabled s) (connection_interval s) (rx_callback s) v
    (device_name s) (manufacturer s) (firmware_version s) (battery_level s)
    (initialized s) (scan_resp_data s) (scan_resp_data_len s).

Definition set_device_name (v : list Z) (s : statics) : statics :=
  mk_statics (con_handle s) (notifications_enabled s)
    (battery_notifications_enabled s) (connection_interval s) (rx_callback s)
    (hci_event_callback_registration s)
    v (manufacturer s) (firmware_version s) (battery_level s)
    (initialized s) (scan_resp_data s) (scan_resp_data_len s).

Definition set_manufacturer (v : list Z) (s : statics) : statics :=
  mk_statics (con_handle s) (notifications_enabled s)
    (battery_notifications_enabled s) (connection_interval s) (rx_callback s)
    (hci_event_callback_registration s)
    (device_name s) v (firmware_version s) (battery_level s)
    (initialized s) (scan_resp_data s) (scan_resp_data_len s).

Definition set_firmware_version (v : list Z) (s : statics) : statics :=
  mk_statics (con_handle s) (notifications_enabled s)
    (battery_notifications_enabled s) (connection_interval s) (rx_callback s)
    (hci_event_callback_registration s)
    (device_name s) (manufacturer s) v (battery_level s)
    (initialized s) (scan_resp_data s) (scan_resp_data_len s).

Definition set_battery_level (v : Z) (s : statics) : statics :=
  mk_statics (con_handle s) (notifications_enabled s)
    (battery_notifications_enabled s) (connection_interval s) (rx_callback s)
    (hci_event_callback_registration s)
    (device_name s) (manufacturer s) (firmware_version s) v
    (initialized s) (scan_resp_data s) (scan_resp_data_len s).

Definition set_initialized (v : bool) (s : statics) : statics :=
  mk_statics (con_handle s) (notifications_enabled s)
    (battery_notifications_enabled s) (connection_interval s) (rx_callback s)
    (hci_event_callback_registration s)
    (device_name s) (manufacturer s) (firmware_version s) (battery_level s)
    v (scan_resp_data s) (scan_resp_data_len s).

Definition set_scan_resp_data (v : list Z) (s : statics) : statics :=
  mk_statics (con_handle s) (notifications_enabled s)
    (battery_notifications_enabled s) (connection_interval s) (rx_callback s)
    (hci_event_callback_registration s)
    (device_name s) (manufacturer s) (firmware_version s) (battery_level s)
    (initialized s) v (scan_resp_data_len s).

Definition set_scan_resp_data_len (v : Z) (s : statics) : statics :=
  mk_statics (con_handle s) (notifications_enabled s)
    (battery_notifications_enabled s) (connection_interval s) (rx_callback s)
    (hci_event_callback_registration s)
    (device_name s) (manufacturer s) (firmware_version s) (battery_level s)
    (initialized s) (scan_resp_data s) v.

(** ** Calls leaving the library *)

(** Every call the code makes into the Bluetooth stack or the radio driver,
    and every invocation of the application's receive callback, in program
    order.  Buffers are recorded as the bytes the callee is given
    (the first [len] bytes of the array passed). *)
Inductive call : Type :=
  | att_server_notify (con : Z) (attribute_handle : Z) (value : list Z)
  | rx_callback_call (f : nat) (status data1 data2 : Z)
  | gap_request_connection_parameter_update
      (con conn_interval_min conn_interval_max latency supervision_timeout : Z)
  | gap_advertisements_set_params
      (adv_int_min adv_int_max adv_type direct_address_type : Z)
      (direct_address : list Z) (channel_map filter_policy : Z)
  | gap_advertisements_set_data (data : list Z)
  | gap_scan_response_set_data (data : list Z)
  | gap_advertisements_enable (enabled : Z)
  | cyw43_arch_init
  | cyw43_arch_deinit
  | l2cap_init
  | sm_init
  | att_server_init
  | hci_add_event_handler
  | att_server_register_packet_handler
  | hci_power_control (mode : Z).

(** What the collaborators answer.  The library only looks at these three
    results; they are taken as parameters of the model. *)
Record transport : Type := mk_transport {
  att_server_can_send_packet_now : Z -> bool;
  att_server_notify_result : Z -> Z -> list Z -> Z;
  cyw43_arch_init_result : Z
}.

(** ** The state-and-trace monad *)

Definition M (A : Type) : Type := statics -> A * statics * list call.

Definition run {A : Type} (m : M A) (s : statics) : A * statics * list call := m s.
Definition retval {A : Type} (r : A * statics * list call) : A := r.1.1.
Definition final {A : Type} (r : A * statics * list call) : statics := r.1.2.
Definition calls {A : Type} (r : A * statics * list call) : list call := r.2.

#[global] Instance M_ret : MRet M := fun A x s => (x, s, []).
#[global] Instance M_bind : MBind M := fun A B f m s =>
  let '(x, s1, t1) := m s in
  let '(y, s2, t2) := f x s1 in
  (y, s2, t1 ++ t2).

Definition get : M statics := fun s => (s, s, []).
Definition modify (f : statics -> statics) : M unit := fun s => (tt, f s, []).
Definition emit (c : call) : M unit := fun s => (tt, s, [c]).

(** ** Buffers *)

(** [buffer[i]] for a C array.  Reading past the end is undefined in C; the
    model reads 0 there, and no theorem below depends on such a read. *)
Definition byte_at (buffer : list Z) (i : nat) : Z := default 0 (buffer !! i).

(** [memcpy(&dst[off], src, n)]: [n] bytes, lowest address first.  A write
    past the end of [dst] is undefined in C and does nothing here (stdpp's
    insert); the copy stops early if [src] has fewer than [n] bytes. *)
Fixpoint memcpy (dst : list Z) (off : nat) (src : list Z) (n : nat) : list Z :=
  match n, src with
  | S n', x :: src' => memcpy (<[off := x]> dst) (S off) src' n'
  | _, _ => dst
  end.

(** BTstack's [little_endian_read_16(buffer, pos)]. *)
Definition little_endian_read_16 (buffer : list Z) (pos : nat) : Z :=
  u16 (Z.lor (byte_at buffer pos) (Z.shiftl (byte_at buffer (S pos)) 8)).

(** ** Advertising data *)

Definition adv_data : list Z := [
  0x02; BLUETOOTH_DATA_TYPE_FLAGS; APP_AD_FLAGS;
  0x11; BLUETOOTH_DATA_TYPE_COMPLETE_LIST_OF_128_BIT_SERVICE_CLASS_UUIDS;
  0x00; 0xC7; 0xC4; 0x4E; 0xE3; 0x6C; 0x51; 0xA7;
  0x33; 0x4B; 0xE8; 0xED; 0x5A; 0x0E; 0xB8; 0x03
].

(** [sizeof(adv_data)]. *)
Definition sizeof_adv_data : Z := Z.of_nat (length adv_data).

(** [strlen(name)] is the length of the byte list: names are kept without
    their terminator. *)
Definition build_scan_response (name : list Z) : M unit :=
  let name_len := Z.of_nat (length name) in
  let name_len := if 29 <? name_len then 29 else name_len in
  modify (fun s => set_scan_resp_data (<[0%nat := u8 (name_len + 1)]> (scan_resp_data s)) s);;
  modify (fun s => set_scan_resp_data
                     (<[1%nat := BLUETOOTH_DATA_TYPE_COMPLETE_LOCAL_NAME]> (scan_resp_data s)) s);;
  modify (fun s => set_scan_resp_data
                     (memcpy (scan_resp_data s) 2 name (Z.to_nat name_len)) s);;
  modify (set_scan_resp_data_len (u8 (name_len + 2))).

(** ** BLE-MIDI packet encoding *)

(** Returns the buffer [dst] as the function leaves it, and its return
    value.  [midi_len] is a [uint8_t], so [midi_len + 2] fits the
    [uint16_t] result. *)
Definition encode_ble_midi_packet (dst : list Z) (midi : list Z) (midi_len : Z)
  : list Z * Z :=
  let dst := <[0%nat := 0x80]> dst in
  let dst := <[1%nat := 0x80]> dst in
  let dst := memcpy dst 2 midi (Z.to_nat midi_len) in
  (dst, u16 (midi_len + 2)).

Section Library.

(** The collaborators, and the attribute handles of the generated GATT
    header [rokot_ble_midi_service.h], which define the handles the
    callbacks compare against. *)
Variable T : transport.
Variable ATT_CHARACTERISTIC_ORG_BLUETOOTH_CHARACTERISTIC_BATTERY_LEVEL_01_VALUE_HANDLE : Z.
Variable ATT_CHARACTERISTIC_ORG_BLUETOOTH_CHARACTERISTIC_BATTERY_LEVEL_01_CLIENT_CONFIGURATION_HANDLE : Z.
Variable ATT_CHARACTERISTIC_7772E5DB_3868_4112_A1A9_F2669D106BF3_01_VALUE_HANDLE : Z.
Variable ATT_CHARACTERISTIC_7772E5DB_3868_4112_A1A9_F2669D106BF3_01_CLIENT_CONFIGURATION_HANDLE : Z.

(** A call to [att_server_notify]: recorded, and answered by the
    transport. *)
Definition do_att_server_notify (con attribute_handle : Z) (value : list Z) : M Z :=
  emit (att_server_notify con attribute_handle value);;
  mret (att_server_notify_result T con attribute_handle value).

(** The local [packet[32]] is uninitialised in C; the model starts it
    zeroed.  Only its first [packet_len] bytes are handed to the
    transport. *)
Definition send_midi_internal (midi : list Z) (len : Z) : M Z :=
  s ← get;
  if negb (notifications_enabled s) || (con_handle s =? HCI_CON_HANDLE_INVALID)
  then mret (-1)
  else
    let packet := replicate 32 0 in
    let '(packet, packet_len) := encode_ble_midi_packet packet midi len in
    if negb (att_server_can_send_packet_now T (con_handle s))
    then mret (-2)
    else
      result ← do_att_server_notify (con_handle s)
        ATT_CHARACTERISTIC_7772E5DB_3868_4112_A1A9_F2669D106BF3_01_VALUE_HANDLE
        (take (Z.to_nat packet_len) packet);
      mret (if result =? 0 then 0 else -3).

(** ** ATT write callback *)

(** [buffer_size] is the length the stack reports for [buffer]. *)
Definition att_write_callback (connection_handle att_handle transaction_mode offset : Z)
    (buffer : list Z) (buffer_size : Z) : M Z :=
  (* Battery CCCD *)
  if att_handle =? ATT_CHARACTERISTIC_ORG_BLUETOOTH_CHARACTERISTIC_BATTERY_LEVEL_01_CLIENT_CONFIGURATION_HANDLE
  then
    modify (set_battery_notifications_enabled
              (little_endian_read_16 buffer 0
               =? GATT_CLIENT_CHARACTERISTICS_CONFIGURATION_NOTIFICATION));;
    modify (set_con_handle connection_handle);;
    mret 0
  (* MIDI CCCD *)
  else if att_handle =? ATT_CHARACTERISTIC_7772E5DB_3868_4112_A1A9_F2669D106BF3_01_CLIENT_CONFIGURATION_HANDLE
  then
    modify (set_notifications_enabled
              (little_endian_read_16 buffer 0
               =? GATT_CLIENT_CHARACTERISTICS_CONFIGURATION_NOTIFICATION));;
    modify (set_con_handle connection_handle);;
    mret 0
  (* Incoming MIDI *)
  else if att_handle =? ATT_CHARACTERISTIC_7772E5DB_3868_4112_A1A9_F2669D106BF3_01_VALUE_HANDLE
  then
    s ← get;
    match 2 <? buffer_size, rx_callback s with
    | true, Some f =>
        if 5 <=? buffer_size
        then emit (rx_callback_call f (byte_at buffer 2) (byte_at buffer 3) (byte_at buffer 4))
        else if 4 <=? buffer_size
        then emit (rx_callback_call f (byte_at buffer 2) (byte_at buffer 3) 0)
        else mret tt
    | _, _ => mret tt
    end;;
    mret 0
  else mret 0.

(** ** HCI event handler *)

(** The events [packet_handler] tells apart, with the fields it reads
    through the stack's accessors ([hci_event_packet_get_type],
    [btstack_event_state_get_state], [hci_event_le_meta_get_subevent_code],
    [hci_subevent_le_connection_complete_get_connection_handle], ...). *)
Inductive hci_event : Type :=
  | BTSTACK_EVENT_STATE (state : Z)
  | HCI_SUBEVENT_LE_CONNECTION_COMPLETE (connection_handle conn_interval : Z)
  | HCI_SUBEVENT_LE_CONNECTION_UPDATE_COMPLETE (conn_interval : Z)
  | HCI_EVENT_LE_META_other
  | HCI_EVENT_DISCONNECTION_COMPLETE
  | HCI_EVENT_other.

Definition packet_handler (packet_type channel : Z) (packet : hci_event) (size : Z)
  : M unit :=
  if negb (packet_type =? HCI_EVENT_PACKET) then mret tt
  else
    match packet with
    | BTSTACK_EVENT_STATE state =>
        if state =? HCI_STATE_WORKING then
          let null_addr := replicate 6 0 in
          emit (gap_advertisements_set_params 0x0020 0x0040 0 0 null_addr 0x07 0x00);;
          emit (gap_advertisements_set_data (take (Z.to_nat sizeof_adv_data) adv_data));;
          s ← get;
          emit (gap_scan_response_set_data
                  (take (Z.to_nat (scan_resp_data_len s)) (scan_resp_data s)));;
          emit (gap_advertisements_enable 1)
        else mret tt
    | HCI_SUBEVENT_LE_CONNECTION_COMPLETE connection_handle conn_interval =>
        modify (set_con_handle connection_handle);;
        modify (set_connection_interval conn_interval);;
        s ← get;
        emit (gap_request_connection_parameter_update (con_handle s)
                ROKOT_BLE_MIDI_CONN_INTERVAL_MIN ROKOT_BLE_MIDI_CONN_INTERVAL_MAX 0 100)
    | HCI_SUBEVENT_LE_CONNECTION_UPDATE_COMPLETE conn_interval =>
        modify (set_connection_interval conn_interval)
    | HCI_EVENT_LE_META_other => mret tt
    | HCI_EVENT_DISCONNECTION_COMPLETE =>
        modify (set_con_handle HCI_CON_HANDLE_INVALID);;
        modify (set_notifications_enabled false);;
        modify (set_battery_notifications_enabled false);;
        modify (set_connection_interval 0);;
        emit (gap_advertisements_enable 1)
    | HCI_EVENT_other => mret tt
    end.

(** ** Public API *)

(** [strncpy] into [device_name[32]] followed by the terminator at index 31
    keeps at most 31 bytes of the name. *)
Definition rokot_ble_midi_init (name : list Z) : M Z :=
  s ← get;
  if initialized s then mret (-1)
  else
    modify (set_device_name (take 31 name));;
    build_scan_response name;;
    emit cyw43_arch_init;;
    if negb (cyw43_arch_init_result T =? 0) then mret (-2)
    else
      emit l2cap_init;;
      emit sm_init;;
      emit att_server_init;;
      modify (set_hci_event_callback_registration true);;
      emit hci_add_event_handler;;
      emit att_server_register_packet_handler;;
      emit (hci_power_control HCI_POWER_ON);;
      modify (set_initialized true);;
      mret 0.

Definition rokot_ble_midi_deinit : M unit :=
  s ← get;
  if negb (initialized s) then mret tt
  else
    emit (hci_power_control HCI_POWER_OFF);;
    emit cyw43_arch_deinit;;
    modify (set_initialized false);;
    modify (set_con_handle HCI_CON_HANDLE_INVALID);;
    modify (set_notifications_enabled false);;
    modify (set_battery_notifications_enabled false).

(** The three status queries only read the state. *)
Definition rokot_ble_midi_get_state (s : statics) : rokot_ble_midi_state_t :=
  if notifications_enabled s then ROKOT_BLE_MIDI_READY
  else if negb (con_handle s =? HCI_CON_HANDLE_INVALID) then ROKOT_BLE_MIDI_CONNECTED
  else ROKOT_BLE_MIDI_DISCONNECTED.

Definition rokot_ble_midi_is_ready (s : statics) : bool :=
  notifications_enabled s && negb (con_handle s =? HCI_CON_HANDLE_INVALID).

Definition rokot_ble_midi_is_connected (s : statics) : bool :=
  negb (con_handle s =? HCI_CON_HANDLE_INVALID).

(** Device information: [strncpy] into 32 and 16 byte arrays. *)
Definition rokot_ble_midi_set_manufacturer (name : list Z) : M unit :=
  modify (set_manufacturer (take 31 name)).

Definition rokot_ble_midi_set_firmware_version (version : list Z) : M unit :=
  modify (set_firmware_version (take 15 version)).

(** Battery. *)
Definition rokot_ble_midi_set_battery_level (level : Z) : M unit :=
  let level := if 100 <? level then 100 else level in
  modify (set_battery_level level);;
  s ← get;
  if battery_notifications_enabled s
     && negb (con_handle s =? HCI_CON_HANDLE_INVALID)
     && att_server_can_send_packet_now T (con_handle s)
  then
    _ ← do_att_server_notify (con_handle s)
      ATT_CHARACTERISTIC_ORG_BLUETOOTH_CHARACTERISTIC_BATTERY_LEVEL_01_VALUE_HANDLE
      [level];
    mret tt
  else mret tt.

Definition rokot_ble_midi_get_battery_level (s : statics) : Z := battery_level s.

(** MIDI.  Each sender fills a local array and hands it to
    [send_midi_internal]; the arrays are named here so that what is sent
    can be stated. *)
Definition note_on_midi (channel note velocity : Z) : list Z :=
  [u8 (Z.lor MIDI_NOTE_ON (Z.land channel 0x0F)); Z.land note 0x7F; Z.land velocity 0x7F].

Definition rokot_ble_midi_note_on (channel note velocity : Z) : M Z :=
  send_midi_internal (note_on_midi channel note velocity) 3.

Definition note_off_midi (channel note : Z) : list Z :=
  [u8 (Z.lor MIDI_NOTE_OFF (Z.land channel 0x0F)); Z.land note 0x7F; 0].

Definition rokot_ble_midi_note_off (channel note : Z) : M Z :=
  send_midi_internal (note_off_midi channel note) 3.

Definition control_change_midi (channel controller value : Z) : list Z :=
  [u8 (Z.lor MIDI_CONTROL_CHANGE (Z.land channel 0x0F));
   Z.land controller 0x7F; Z.land value 0x7F].

Definition rokot_ble_midi_control_change (channel controller value : Z) : M Z :=
  send_midi_internal (control_change_midi channel controller value) 3.

Definition program_change_midi (channel program : Z) : list Z :=
  [u8 (Z.lor MIDI_PROGRAM_CHANGE (Z.land channel 0x0F)); Z.land program 0x7F].

Definition rokot_ble_midi_program_change (channel program : Z) : M Z :=
  send_midi_internal (program_change_midi channel program) 2.

(** [value] is an [int16_t]; the sum is computed in [int] and converted to
    [uint16_t]. *)
Definition pitch_bend_midi (channel value : Z) : list Z :=
  let bend := u16 (value + 8192) in
  [u8 (Z.lor MIDI_PITCH_BEND (Z.land channel 0x0F));
   u8 (Z.land bend 0x7F);
   u8 (Z.land (Z.shiftr bend 7) 0x7F)].

Definition rokot_ble_midi_pitch_bend (channel value : Z) : M Z :=
  send_midi_internal (pitch_bend_midi channel value) 3.

Definition channel_pressure_midi (channel pressure : Z) : list Z :=
  [u8 (Z.lor MIDI_CHANNEL_PRESSURE (Z.land channel 0x0F)); Z.land pressure 0x7F].

Definition rokot_ble_midi_channel_pressure (channel pressure : Z) : M Z :=
  send_midi_internal (channel_pressure_midi channel pressure) 2.

Definition rokot_ble_midi_send_raw (data : list Z) (len : Z) : M Z :=
  if (len =? 0) || (3 <? len) then mret (-1)
  else send_midi_internal data len.

Definition rokot_ble_midi_set_callback (callback : rokot_ble_midi_callback_t) : M unit :=
  modify (set_rx_callback callback).

End Library.

(** ** Derived notions used in the statements *)

(** The bytes [send_midi_internal] hands to the transport for the message
    [midi]: the first [packet_len] bytes of the encoded buffer. *)
Definition ble_midi_packet (midi : list Z) : list Z :=
  let '(packet, packet_len) :=
    encode_ble_midi_packet (replicate 32 0) midi (Z.of_nat (length midi)) in
  take (Z.to_nat packet_len) packet.

(** The BLE-MIDI service UUID 03B80E5A-EDE8-4B33-A751-6CE34EC4C700 as the
    source comment on [adv_data] spells it, most significant byte first. *)
Definition BLE_MIDI_SERVICE_UUID : list Z := [
  0x03; 0xB8; 0x0E; 0x5A; 0xED; 0xE8; 0x4B; 0x33;
  0xA7; 0x51; 0x6C; 0xE3; 0x4E; 0xC4; 0xC7; 0x00
].

(** A call to one of the seven send operations of the public API. *)
Inductive send_request : Type :=
  | note_on (channel note velocity : Z)
  | note_off (channel note : Z)
  | control_change (channel controller value : Z)
  | program_change (channel program : Z)
  | pitch_bend (channel value : Z)
  | channel_pressure (channel pressure : Z)
  | send_raw (data : list Z) (len : Z).

(** The raw sender is documented for lengths 1 to 3; the typed senders take
    any arguments. *)
Definition raw_length_invalid (q : send_request) : bool :=
  match q with
  | send_raw _ len => (len =? 0) || (3 <? len)
  | _ => false
  end.

(** Inputs that drive the library: events delivered by the stack and calls
    made by the application. *)
Inductive input : Type :=
  | in_packet (packet_type channel : Z) (packet : hci_event) (size : Z)
  | in_att_write (connection_handle att_handle transaction_mode offset : Z)
      (buffer : list Z) (buffer_size : Z)
  | in_init (name : list Z)
  | in_deinit
  | in_set_manufacturer (name : list Z)
  | in_set_firmware_version (version : list Z)
  | in_set_battery_level (level : Z)
  | in_send (q : send_request)
  | in_set_callback (callback : rokot_ble_midi_callback_t).

(** The stack only reports handles of existing connections: a link-complete
    event and an ATT write never carry [HCI_CON_HANDLE_INVALID]. *)
Definition valid_input (i : input) : Prop :=
  match i with
  | in_packet _ _ (HCI_SUBEVENT_LE_CONNECTION_COMPLETE connection_handle _) _ =>
      connection_handle <> HCI_CON_HANDLE_INVALID
  | in_att_write connection_handle _ _ _ _ _ =>
      connection_handle <> HCI_CON_HANDLE_INVALID
  | _ => True
  end.

Section Driver.

Variable T : transport.
Variables bat_val bat_cccd midi_val midi_cccd : Z.

Definition ignore {A : Type} (m : M A) : M unit := _ ← m; mret tt.

Definition perform (q : send_request) : M Z :=
  match q with
  | note_on channel note velocity =>
      rokot_ble_midi_note_on T midi_val channel note velocity
  | note_off channel note => rokot_ble_midi_note_off T midi_val channel note
  | control_change channel controller value =>
      rokot_ble_midi_control_change T midi_val channel controller value
  | program_change channel program =>
      rokot_ble_midi_program_change T midi_val channel program
  | pitch_bend channel value => rokot_ble_midi_pitch_bend T midi_val channel value
  | channel_pressure channel pressure =>
      rokot_ble_midi_channel_pressure T midi_val channel pressure
  | send_raw data len => rokot_ble_midi_send_raw T midi_val data len
  end.

Definition dispatch (i : input) : M unit :=
  match i with
  | in_packet packet_type channel packet size =>
      packet_handler packet_type channel packet size
  | in_att_write connection_handle att_handle transaction_mode offset buffer buffer_size =>
      ignore (att_write_callback bat_cccd midi_val midi_cccd
                connection_handle att_handle transaction_mode offset buffer buffer_size)
  | in_init name => ignore (rokot_ble_midi_init T name)
  | in_deinit => rokot_ble_midi_deinit
  | in_set_manufacturer name => rokot_ble_midi_set_manufacturer name
  | in_set_firmware_version version => rokot_ble_midi_set_firmware_version version
  | in_set_battery_level level => rokot_ble_midi_set_battery_level T bat_val level
  | in_send q => ignore (perform q)
  | in_set_callback callback => rokot_ble_midi_set_callback callback
  end.

(** The states the library can be in: the initial contents of the static
    storage, and whatever a valid input leads to from there. *)
Inductive reachable : statics -> Prop :=
  | reachable_initial : reachable ble_midi_state
  | reachable_step (s : statics) (i : input) :
      reachable s -> valid_input i -> reachable (final (run (dispatch i) s)).

End Driver.

(** The invariant of the connection state: a notification gate is only
    enabled while a connection handle is recorded. *)
Definition gates_imply_connection (s : statics) : Prop :=
  notifications_enabled s = true \/ battery_notifications_enabled s = true ->
  con_handle s <> HCI_CON_HANDLE_INVALID.

(** ** ATT read callback *)

Section Reads.

(** BTstack's [att_read_callback_handle_blob] and
    [att_read_callback_handle_byte] belong to the stack: each is given the
    value to serve, the offset and the buffer, and answers the number of
    bytes served together with the buffer as it leaves it. *)
Variable att_read_callback_handle_blob :
  list Z -> Z -> Z -> list Z -> Z -> Z * list Z.
Variable att_read_callback_handle_byte : Z -> Z -> list Z -> Z -> Z * list Z.
Variable ATT_CHARACTERISTIC_ORG_BLUETOOTH_CHARACTERISTIC_MANUFACTURER_NAME_STRING_01_VALUE_HANDLE : Z.
Variable ATT_CHARACTERISTIC_ORG_BLUETOOTH_CHARACTERISTIC_FIRMWARE_REVISION_STRING_01_VALUE_HANDLE : Z.
Variable ATT_CHARACTERISTIC_ORG_BLUETOOTH_CHARACTERISTIC_BATTERY_LEVEL_01_VALUE_HANDLE : Z.
Variable ATT_CHARACTERISTIC_7772E5DB_3868_4112_A1A9_F2669D106BF3_01_VALUE_HANDLE : Z.

(** The callback reads the state and may fill [buffer]; it returns the
    length served and the buffer. [strlen] of a stored string is the length
    of its byte list, converted to the [uint16_t] parameter. *)
Definition att_read_callback (connection_handle att_handle offset : Z)
    (buffer : list Z) (buffer_size : Z) (s : statics) : Z * list Z :=
  (* Manufacturer Name *)
  if att_handle =? ATT_CHARACTERISTIC_ORG_BLUETOOTH_CHARACTERISTIC_MANUFACTURER_NAME_STRING_01_VALUE_HANDLE
  then att_read_callback_handle_blob (manufacturer s)
         (u16 (Z.of_nat (length (manufacturer s)))) offset buffer buffer_size
  (* Firmware Revision *)
  else if att_handle =? ATT_CHARACTERISTIC_ORG_BLUETOOTH_CHARACTERISTIC_FIRMWARE_REVISION_STRING_01_VALUE_HANDLE
  then att_read_callback_handle_blob (firmware_version s)
         (u16 (Z.of_nat (length (firmware_version s)))) offset buffer buffer_size
  (* Battery Level *)
  else if att_handle =? ATT_CHARACTERISTIC_ORG_BLUETOOTH_CHARACTERISTIC_BATTERY_LEVEL_01_VALUE_HANDLE
  then att_read_callback_handle_byte (battery_level s) offset buffer buffer_size
  (* BLE-MIDI *)
  else if att_handle =? ATT_CHARACTERISTIC_7772E5DB_3868_4112_A1A9_F2669D106BF3_01_VALUE_HANDLE
  then (0, buffer)
  else (0, buffer).

End Reads.

(** ** The receive callback of the README *)

(** What the example callback prints: one line per Note On or Note Off. *)
Inductive printf_call : Type :=
  | printf_note_on (channel data1 data2 : Z)
  | printf_note_off (channel data1 : Z).

(** [midi_callback] of the "Receiving MIDI Messages" example. *)
Definition midi_callback (status data1 data2 : Z) : list printf_call :=
  let type := u8 (Z.land status 0xF0) in
  let channel := u8 (Z.land status 0x0F) in
  if type =? MIDI_NOTE_ON then [printf_note_on channel data1 data2]
  else if type =? MIDI_NOTE_OFF then [printf_note_off channel data1]
  else [].

(** ** More notions used in the statements *)

(** The MIDI message a send operation hands to [send_midi_internal]: the
    array the typed sender fills, or the first [len] bytes of the raw data. *)
Definition request_midi (q : send_request) : list Z :=
  match q with
  | note_on channel note velocity => note_on_midi channel note velocity
  | note_off channel note => note_off_midi channel note
  | control_change channel controller value =>
      control_change_midi channel controller value
  | program_change channel program => program_change_midi channel program
  | pitch_bend channel value => pitch_bend_midi channel value
  | channel_pressure channel pressure => channel_pressure_midi channel pressure
  | send_raw data len => take (Z.to_nat len) data
  end.

(** The arguments of a raw send are of their C types when [len] is a
    [uint8_t] and [data] holds at least [len] bytes. *)
Definition raw_in_bounds (q : send_request) : Prop :=
  match q with
  | send_raw data len => 0 <= len <= Z.of_nat (length data)
  | _ => True
  end.

(** The calls that only the Bluetooth stack's GAP layer receives. *)
Definition is_gap_call (c : call) : bool :=
  match c with
  | gap_request_connection_parameter_update _ _ _ _ _
  | gap_advertisements_set_params _ _ _ _ _ _ _
  | gap_advertisements_set_data _
  | gap_scan_response_set_data _
  | gap_advertisements_enable _ => true
  | _ => false
  end.

(** The record [build_scan_response] builds for a name: length byte, type
    Complete Local Name, and at most 29 bytes of the name. *)
Definition scan_response_record (name : list Z) : list Z :=
  (Z.of_nat (Nat.min (length name) 29) + 1)
    :: BLUETOOTH_DATA_TYPE_COMPLETE_LOCAL_NAME
    :: take 29 name.

(** The state [rokot_ble_midi_init] has built when it calls the driver:
    the name is stored, the scan response is built. *)
Definition named (name : list Z) (s : statics) : statics :=
  final (run (build_scan_response name) (set_device_name (take 31 name) s)).

(** The array and the length a send operation passes to
    [send_midi_internal]. *)
Definition request_array (q : send_request) : list Z :=
  match q with
  | send_raw data _ => data
  | _ => request_midi q
  end.

Definition request_len (q : send_request) : Z :=
  match q with
  | note_on _ _ _ | note_off _ _ | control_change _ _ _ | pitch_bend _ _ => 3
  | program_change _ _ | channel_pressure _ _ => 2
  | send_raw _ len => len
  end.

(** The bytes of the notification for a send operation: the first
    [packet_len] bytes of the buffer [encode_ble_midi_packet] fills. *)
Definition wire_packet (q : send_request) : list Z :=
  let encoded :=
    encode_ble_midi_packet (replicate 32 0) (request_array q) (request_len q) in
  take (Z.to_nat encoded.2) encoded.1.

(** ** The first revision of the library *)

(** The repository also carries the revision of [rokot_ble_midi.c] that
    precedes the Battery and Device Information services. It is embedded
    here in the same way, function by function, to be compared with the
    later one. The packet codec, the advertising data and the scan response
    code are the same text and are shared. *)
Module V1.

Record statics : Type := mk_statics {
  con_handle : Z;
  notifications_enabled : bool;
  connection_interval : Z;
  rx_callback : rokot_ble_midi_callback_t;
  hci_event_callback_registration : bool;
  device_name : list Z;
  initialized : bool;
  scan_resp_data : list Z;
  scan_resp_data_len : Z
}.

Definition ble_midi_state : statics := {|
  con_handle := HCI_CON_HANDLE_INVALID;
  notifications_enabled := false;
  connection_interval := 0;
  rx_callback := None;
  hci_event_callback_registration := false;
  device_name := [];
  initialized := false;
  scan_resp_data := replicate 32 0;
  scan_resp_data_len := 0
|}.

Definition set_con_handle (v : Z) (s : statics) : statics :=
  mk_statics v (notifications_enabled s) (connection_interval s) (rx_callback s)
    (hci_event_callback_registration s) (device_name s) (initialized s)
    (scan_resp_data s) (scan_resp_data_len s).

Definition set_notifications_enabled (v : bool) (s : statics) : statics :=
  mk_statics (con_handle s) v (connection_interval s) (rx_callback s)
    (hci_event_callback_registration s) (device_name s) (initialized s)
    (scan_resp_data s) (scan_resp_data_len s).

Definition set_connection_interval (v : Z) (s : statics) : statics :=
  mk_statics (con_handle s) (notifications_enabled s) v (rx_callback s)
    (hci_event_callback_registration s) (device_name s) (initialized s)
    (scan_resp_data s) (scan_resp_data_len s).

Definition set_rx_callback (v : rokot_ble_midi_callback_t) (s : statics) : statics :=
  mk_statics (con_handle s) (notifications_enabled s) (connection_interval s) v
    (hci_event_callback_registration s) (device_name s) (initialized s)
    (scan_resp_data s) (scan_resp_data_len s).

Definition set_hci_event_callback_registration (v : bool) (s : statics) : statics :=
  mk_statics (con_handle s) (notifications_enabled s) (connection_interval s)
    (rx_callback s) v (device_name s) (initialized s)
    (scan_resp_data s) (scan_resp_data_len s).

Definition set_device_name (v : list Z) (s : statics) : statics :=
  mk_statics (con_handle s) (notifications_enabled s) (connection_interval s)
    (rx_callback s) (hci_event_callback_registration s) v (initialized s)
    (scan_resp_data s) (scan_resp_data_len s).

Definition set_initialized (v : bool) (s : statics) : statics :=
  mk_statics (con_handle s) (notifications_enabled s) (connection_interval s)
    (rx_callback s) (hci_event_callback_registration s) (device_name s) v
    (scan_resp_data s) (scan_resp_data_len s).

Definition set_scan_resp_data (v : list Z) (s : statics) : statics :=
  mk_statics (con_handle s) (notifications_enabled s) (connection_interval s)
    (rx_callback s) (hci_event_callback_registration s) (device_name s)
    (initialized s) v (scan_resp_data_len s).

Definition set_scan_resp_data_len (v : Z) (s : statics) : statics :=
  mk_statics (con_handle s) (notifications_enabled s) (connection_interval s)
    (rx_callback s) (hci_event_callback_registration s) (device_name s)
    (initialized s) (scan_resp_data s) v.

Definition M (A : Type) : Type := statics -> A * statics * list call.

Definition run {A : Type} (m : M A) (s : statics) : A * statics * list call := m s.

#[global] Instance M_ret : MRet M := fun A x s => (x, s, []).
#[global] Instance M_bind : MBind M := fun A B f m s =>
  let '(x, s1, t1) := m s in
  let '(y, s2, t2) := f x s1 in
  (y, s2, t1 ++ t2).

Definition get : M statics := fun s => (s, s, []).
Definition modify (f : statics -> statics) : M unit := fun s => (tt, f s, []).
Definition emit (c : call) : M unit := fun s => (tt, s, [c]).

Definition build_scan_response (name : list Z) : M unit :=
  let name_len := Z.of_nat (length name) in
  let name_len := if 29 <? name_len then 29 else name_len in
  modify (fun s => set_scan_resp_data (<[0%nat := u8 (name_len + 1)]> (scan_resp_data s)) s);;
  modify (fun s => set_scan_resp_data
                     (<[1%nat := BLUETOOTH_DATA_TYPE_COMPLETE_LOCAL_NAME]> (scan_resp_data s)) s);;
  modify (fun s => set_scan_resp_data
                     (memcpy (scan_resp_data s) 2 name (Z.to_nat name_len)) s);;
  modify (set_scan_resp_data_len (u8 (name_len + 2))).

Section Library.

Variable T : transport.
Variable ATT_CHARACTERISTIC_7772E5DB_3868_4112_A1A9_F2669D106BF3_01_VALUE_HANDLE : Z.
Variable ATT_CHARACTERISTIC_7772E5DB_3868_4112_A1A9_F2669D106BF3_01_CLIENT_CONFIGURATION_HANDLE : Z.

Definition do_att_server_notify (con attribute_handle : Z) (value : list Z) : M Z :=
  emit (att_server_notify con attribute_handle value);;
  mret (att_server_notify_result T con attribute_handle value).

Definition send_midi_internal (midi : list Z) (len : Z) : M Z :=
  s ← get;
  if negb (notifications_enabled s) || (con_handle s =? HCI_CON_HANDLE_INVALID)
  then mret (-1) (* Not ready *)
  else
    let packet := replicate 32 0 in
    let '(packet, packet_len) := encode_ble_midi_packet packet midi len in
    if negb (att_server_can_send_packet_now T (con_handle s))
    then mret (-2) (* Cannot send right now *)
    else
      result ← do_att_server_notify (con_handle s)
        ATT_CHARACTERISTIC_7772E5DB_3868_4112_A1A9_F2669D106BF3_01_VALUE_HANDLE
        (take (Z.to_nat packet_len) packet);
      mret (if result =? 0 then 0 else -3).

Definition att_write_callback (connection_handle att_handle transaction_mode offset : Z)
    (buffer : list Z) (buffer_size : Z) : M Z :=
  (* Handle CCCD write (enable/disable notifications) *)
  if att_handle =? ATT_CHARACTERISTIC_7772E5DB_3868_4112_A1A9_F2669D106BF3_01_CLIENT_CONFIGURATION_HANDLE
  then
    modify (set_notifications_enabled
              (little_endian_read_16 buffer 0
               =? GATT_CLIENT_CHARACTERISTICS_CONFIGURATION_NOTIFICATION));;
    modify (set_con_handle connection_handle);;
    mret 0
  (* Handle incoming MIDI data *)
  else if att_handle =? ATT_CHARACTERISTIC_7772E5DB_3868_4112_A1A9_F2669D106BF3_01_VALUE_HANDLE
  then
    s ← get;
    match 2 <? buffer_size, rx_callback s with
    | true, Some f =>
        if 5 <=? buffer_size
        then emit (rx_callback_call f (byte_at buffer 2) (byte_at buffer 3) (byte_at buffer 4))
        else if 4 <=? buffer_size
        then emit (rx_callback_call f (byte_at buffer 2) (byte_at buffer 3) 0)
        else mret tt
    | _, _ => mret tt
    end;;
    mret 0
  else mret 0.

Definition packet_handler (packet_type channel : Z) (packet : hci_event) (size : Z)
  : M unit :=
  if negb (packet_type =? HCI_EVENT_PACKET) then mret tt
  else
    match packet with
    | BTSTACK_EVENT_STATE state =>
        if state =? HCI_STATE_WORKING then
          let null_addr := replicate 6 0 in
          emit (gap_advertisements_set_params 0x0020 0x0040 0 0 null_addr 0x07 0x00);;
          emit (gap_advertisements_set_data (take (Z.to_nat sizeof_adv_data) adv_data));;
          s ← get;
          emit (gap_scan_response_set_data
                  (take (Z.to_nat (scan_resp_data_len s)) (scan_resp_data s)));;
          emit (gap_advertisements_enable 1)
        else mret tt
    | HCI_SUBEVENT_LE_CONNECTION_COMPLETE connection_handle conn_interval =>
        modify (set_con_handle connection_handle);;
        modify (set_connection_interval conn_interval);;
        s ← get;
        emit (gap_request_connection_parameter_update (con_handle s)
                ROKOT_BLE_MIDI_CONN_INTERVAL_MIN ROKOT_BLE_MIDI_CONN_INTERVAL_MAX 0 100)
    | HCI_SUBEVENT_LE_CONNECTION_UPDATE_COMPLETE conn_interval =>
        modify (set_connection_interval conn_interval)
    | HCI_EVENT_LE_META_other => mret tt
    | HCI_EVENT_DISCONNECTION_COMPLETE =>
        modify (set_con_handle HCI_CON_HANDLE_INVALID);;
        modify (set_notifications_enabled false);;
        modify (set_connection_interval 0);;
        emit (gap_advertisements_enable 1)
    | HCI_EVENT_other => mret tt
    end.

Definition rokot_ble_midi_init (name : list Z) : M Z :=
  s ← get;
  if initialized s then mret (-1) (* Already initialized *)
  else
    modify (set_device_name (take 31 name));;
    build_scan_response name;;
    emit cyw43_arch_init;;
    if negb (cyw43_arch_init_result T =? 0) then mret (-2)
    else
      emit l2cap_init;;
      emit sm_init;;
      emit att_server_init;;
      modify (set_hci_event_callback_registration true);;
      emit hci_add_event_handler;;
      emit att_server_register_packet_handler;;
      emit (hci_power_control HCI_POWER_ON);;
      modify (set_initialized true);;
      mret 0.

Definition rokot_ble_midi_deinit : M unit :=
  s ← get;
  if negb (initialized s) then mret tt
  else
    emit (hci_power_control HCI_POWER_OFF);;
    emit cyw43_arch_deinit;;
    modify (set_initialized false);;
    modify (set_con_handle HCI_CON_HANDLE_INVALID);;
    modify (set_notifications_enabled false).

Definition rokot_ble_midi_get_state (s : statics) : rokot_ble_midi_state_t :=
  if notifications_enabled s then ROKOT_BLE_MIDI_READY
  else if negb (con_handle s =? HCI_CON_HANDLE_INVALID) then ROKOT_BLE_MIDI_CONNECTED
  else ROKOT_BLE_MIDI_DISCONNECTED.

Definition rokot_ble_midi_is_ready (s : statics) : bool :=
  notifications_enabled s && negb (con_handle s =? HCI_CON_HANDLE_INVALID).

Definition rokot_ble_midi_is_connected (s : statics) : bool :=
  negb (con_handle s =? HCI_CON_HANDLE_INVALID).

(** The senders fill the same arrays as in the later revision. *)
Definition rokot_ble_midi_note_on (channel note velocity : Z) : M Z :=
  send_midi_internal
    [u8 (Z.lor MIDI_NOTE_ON (Z.land channel 0x0F)); Z.land note 0x7F;
     Z.land velocity 0x7F] 3.

Definition rokot_ble_midi_note_off (channel note : Z) : M Z :=
  send_midi_internal
    [u8 (Z.lor MIDI_NOTE_OFF (Z.land channel 0x0F)); Z.land note 0x7F; 0] 3.

Definition rokot_ble_midi_control_change (channel controller value : Z) : M Z :=
  send_midi_internal
    [u8 (Z.lor MIDI_CONTROL_CHANGE (Z.land channel 0x0F));
     Z.land controller 0x7F; Z.land value 0x7F] 3.

Definition rokot_ble_midi_program_change (channel program : Z) : M Z :=
  send_midi_internal
    [u8 (Z.lor MIDI_PROGRAM_CHANGE (Z.land channel 0x0F)); Z.land program 0x7F] 2.

Definition rokot_ble_midi_pitch_bend (channel value : Z) : M Z :=
  (* Convert from -8192..+8191 to 0..16383 *)
  let bend := u16 (value + 8192) in
  send_midi_internal
    [u8 (Z.lor MIDI_PITCH_BEND (Z.land channel 0x0F));
     u8 (Z.land bend 0x7F);
     u8 (Z.land (Z.shiftr bend 7) 0x7F)] 3.

Definition rokot_ble_midi_channel_pressure (channel pressure : Z) : M Z :=
  send_midi_internal
    [u8 (Z.lor MIDI_CHANNEL_PRESSURE (Z.land channel 0x0F)); Z.land pressure 0x7F] 2.

Definition rokot_ble_midi_send_raw (data : list Z) (len : Z) : M Z :=
  if (len =? 0) || (3 <? len) then mret (-1)
  else send_midi_internal data len.

Definition rokot_ble_midi_set_callback (callback : rokot_ble_midi_callback_t) : M unit :=
  modify (set_rx_callback callback).

Definition perform (q : send_request) : M Z :=
  match q with
  | note_on channel note velocity => rokot_ble_midi_note_on channel note velocity
  | note_off channel note => rokot_ble_midi_note_off channel note
  | control_change channel controller value =>
      rokot_ble_midi_control_change channel controller value
  | program_change channel program => rokot_ble_midi_program_change channel program
  | pitch_bend channel value => rokot_ble_midi_pitch_bend channel value
  | channel_pressure channel pressure =>
      rokot_ble_midi_channel_pressure channel pressure
  | send_raw data len => rokot_ble_midi_send_raw data len
  end.

End Library.

End V1.

(** What the first revision can see of the state of the later one. *)
Definition forget (s : statics) : V1.statics :=
  V1.mk_statics (con_handle s) (notifications_enabled s) (connection_interval s)
    (rx_callback s) (hci_event_callback_registration s) (device_name s)
    (initialized s) (scan_resp_data s) (scan_resp_data_len s).

(** An outcome of the later revision as the first revision would see it. *)
Definition seen {A : Type} (r : A * statics * list call) : A * V1.statics * list call :=
  (r.1.1, forget r.1.2, r.2).

(** * Properties *)

(** ** Running the monad *)

Ltac unfold_M :=
  unfold run, retval, final, calls, ignore, do_att_server_notify,
    mbind, M_bind, mret, M_ret, get, modify, emit in *.

Lemma u8_small (x : Z) : 0 <= x < 256 -> u8 x = x.
Proof. intros Hx. unfold u8. apply Z.mod_small. exact Hx. Qed.

Lemma u16_small (x : Z) : 0 <= x < 65536 -> u16 x = x.
Proof. intros Hx. unfold u16. apply Z.mod_small. exact Hx. Qed.

(** ** The copy *)

(** Inside the destination and the source, [memcpy] replaces exactly the
    [n] bytes from [off] on by the first [n] bytes of the source. *)
Lemma memcpy_take_drop (n : nat) :
  forall (dst : list Z) (off : nat) (src : list Z),
    (off + n <= length dst)%nat ->
    (n <= length src)%nat ->
    memcpy dst off src n = take off dst ++ take n src ++ drop (off + n) dst.
Proof.
  induction n as [|n IH]; intros dst off src Hdst Hsrc.
  - simpl. rewrite Nat.add_0_r. destruct src; simpl; symmetry; apply take_drop.
  - destruct src as [|x src]; [simpl in Hsrc; lia|].
    simpl in Hsrc. simpl memcpy.
    rewrite IH by (rewrite ?length_insert; lia).
    rewrite (take_S_r _ _ x) by (apply list_lookup_insert_eq; lia).
    rewrite take_insert_ge by lia.
    rewrite drop_insert_lt by lia.
    replace (off + S n)%nat with (S off + n)%nat by lia.
    rewrite <- app_assoc. reflexivity.
Qed.

Lemma memcpy_length (n : nat) :
  forall (dst : list Z) (off : nat) (src : list Z),
    length (memcpy dst off src n) = length dst.
Proof.
  induction n as [|n IH]; intros dst off src; destruct src; simpl; try reflexivity.
  rewrite IH. apply length_insert.
Qed.

(** For a message that fits the 32-byte buffer, the bytes handed to the
    transport are the two-byte prefix followed by the message, whatever the
    buffer held before. *)
Lemma encode_ble_midi_packet_prefix (dst midi : list Z) :
  length dst = 32%nat ->
  (length midi <= 30)%nat ->
  let '(packet, packet_len) :=
    encode_ble_midi_packet dst midi (Z.of_nat (length midi)) in
  packet_len = Z.of_nat (length midi) + 2 /\
  take (Z.to_nat packet_len) packet = 0x80 :: 0x80 :: midi.
Proof.
  intros Hdst Hmidi. unfold encode_ble_midi_packet.
  rewrite u16_small by lia. split; [reflexivity|].
  rewrite Nat2Z.id.
  rewrite memcpy_take_drop by (rewrite ?length_insert; lia).
  rewrite (take_ge midi (length midi)) by lia.
  destruct dst as [|d0 [|d1 dst]]; [simpl in Hdst; lia ..|].
  change (take 2 (<[1%nat:=128]> (<[0%nat:=128]> (d0 :: d1 :: dst)))) with [128; 128].
  rewrite app_assoc.
  apply (take_app_length' ([128; 128] ++ midi)).
  rewrite length_app. simpl. lia.
Qed.

Lemma ble_midi_packet_eq (midi : list Z) :
  (length midi <= 30)%nat -> ble_midi_packet midi = 0x80 :: 0x80 :: midi.
Proof.
  intros Hmidi. unfold ble_midi_packet.
  pose proof (encode_ble_midi_packet_prefix (replicate 32 0) midi eq_refl Hmidi) as H.
  destruct (encode_ble_midi_packet _ _ _) as [packet packet_len].
  apply H.
Qed.

(** ** Inbound writes on the MIDI characteristic *)

(** What a write to the MIDI value handle does, as one equation: the state
    is left alone, the callback is invoked at most once, the transport is
    told 0. *)
Lemma att_write_callback_midi_value
    (bat_cccd midi_val midi_cccd con mode off : Z) (buffer : list Z) (size : Z)
    (s : statics) :
  midi_val <> bat_cccd ->
  midi_val <> midi_cccd ->
  run (att_write_callback bat_cccd midi_val midi_cccd con midi_val mode off buffer size) s
  = (0, s,
     match 2 <? size, rx_callback s with
     | true, Some f =>
         if 5 <=? size
         then [rx_callback_call f (byte_at buffer 2) (byte_at buffer 3) (byte_at buffer 4)]
         else if 4 <=? size
         then [rx_callback_call f (byte_at buffer 2) (byte_at buffer 3) 0]
         else []
     | _, _ => []
     end).
Proof.
  intros Hb Hc. unfold att_write_callback.
  rewrite (proj2 (Z.eqb_neq _ _) Hb), (proj2 (Z.eqb_neq _ _) Hc), Z.eqb_refl.
  unfold_M.
  destruct (2 <? size), (rx_callback s) as [f|]; try reflexivity.
  destruct (5 <=? size); [reflexivity|].
  destruct (4 <=? size); reflexivity.
Qed.

(** The three cases of the decode policy, by the shape of the buffer. *)
Lemma midi_value_write_cases
    (bat_cccd midi_val midi_cccd con mode off : Z) (b : list Z) (f : nat)
    (s : statics) :
  midi_val <> bat_cccd ->
  midi_val <> midi_cccd ->
  rx_callback s = Some f ->
  let r := run (att_write_callback bat_cccd midi_val midi_cccd
                  con midi_val mode off b (Z.of_nat (length b))) s in
  retval r = 0 /\
  final r = s /\
  (forall b0 b1 b2 b3 b4 rest,
      b = b0 :: b1 :: b2 :: b3 :: b4 :: rest ->
      calls r = [rx_callback_call f b2 b3 b4]) /\
  (forall b0 b1 b2 b3,
      b = [b0; b1; b2; b3] -> calls r = [rx_callback_call f b2 b3 0]) /\
  ((length b <= 3)%nat -> calls r = []).
Proof.
  intros Hb Hc Hf r. subst r.
  rewrite att_write_callback_midi_value by assumption.
  rewrite Hf. unfold retval, final, calls. simpl.
  split; [reflexivity|]. split; [reflexivity|].
  split; [|split].
  - intros b0 b1 b2 b3 b4 rest ->.
    assert (H5 : 5 <= Z.of_nat (length (b0 :: b1 :: b2 :: b3 :: b4 :: rest)))
      by (simpl length; lia).
    rewrite (proj2 (Z.ltb_lt _ _)) by lia.
    rewrite (proj2 (Z.leb_le _ _) H5). reflexivity.
  - intros b0 b1 b2 b3 ->. reflexivity.
  - intros Hlen.
    destruct (2 <? Z.of_nat (length b)) eqn:H2; [|reflexivity].
    rewrite (proj2 (Z.leb_gt _ _)) by lia.
    rewrite (proj2 (Z.leb_gt _ _)) by lia.
    reflexivity.
Qed.

(** C2. A write of the buffer [b] to the MIDI value handle, with a receive
    callback registered, reports success and leaves the state alone; with
    five bytes or more the callback is invoked once with (b[2], b[3], b[4]),
    with exactly four bytes once with (b[2], b[3], 0), and with three bytes
    or fewer it is not invoked. *)
Theorem inbound_write_dispatch
    (bat_cccd midi_val midi_cccd con mode off : Z) (b : list Z) (f : nat)
    (s : statics) :
  midi_val <> bat_cccd ->
  midi_val <> midi_cccd ->
  rx_callback s = Some f ->
  let r := run (att_write_callback bat_cccd midi_val midi_cccd
                  con midi_val mode off b (Z.of_nat (length b))) s in
  retval r = 0 /\
  final r = s /\
  (forall b0 b1 b2 b3 b4 rest,
      b = b0 :: b1 :: b2 :: b3 :: b4 :: rest ->
      calls r = [rx_callback_call f b2 b3 b4]) /\
  (forall b0 b1 b2 b3,
      b = [b0; b1; b2; b3] -> calls r = [rx_callback_call f b2 b3 0]) /\
  ((length b <= 3)%nat -> calls r = []).
Proof. exact (midi_value_write_cases bat_cccd midi_val midi_cccd con mode off b f s). Qed.

(** The example of the specification: the write 80 80 90 3C 64 reaches the
    callback as (0x90, 0x3C, 0x64). *)
Lemma inbound_write_dispatch_witness :
  calls (run (att_write_callback 11 13 14 64 13 0 0 [0x80; 0x80; 0x90; 0x3C; 0x64] 5)
           (set_rx_callback (Some 7%nat) ble_midi_state))
  = [rx_callback_call 7 0x90 0x3C 0x64].
Proof.
  destruct (inbound_write_dispatch 11 13 14 64 0 0 [0x80; 0x80; 0x90; 0x3C; 0x64] 7
              (set_rx_callback (Some 7%nat) ble_midi_state))
    as (_ & _ & H5 & _).
  - discriminate.
  - discriminate.
  - reflexivity.
  - exact (H5 _ _ _ _ _ _ eq_refl).
Defined.

(** A two-byte write invokes nothing and still reports success. *)
Example inbound_write_two_bytes :
  run (att_write_callback 11 13 14 64 13 0 0 [0x80; 0x80] 2)
    (set_rx_callback (Some 7%nat) ble_midi_state)
  = (0, set_rx_callback (Some 7%nat) ble_midi_state, []).
Proof. reflexivity. Qed.

(** ** Encoding followed by an inbound write *)

(** C1, as the code has it. For a message [m] of one to three bytes the
    encoded packet is 80 80 followed by [m]; written back to the MIDI value
    handle with a callback registered, a three-byte message reaches the
    callback as its three bytes, a two-byte message as its two bytes and a
    zero, and a one-byte message does not reach the callback. *)
Theorem encode_then_write
    (bat_cccd midi_val midi_cccd con mode off : Z) (m : list Z) (f : nat)
    (s : statics) :
  midi_val <> bat_cccd ->
  midi_val <> midi_cccd ->
  rx_callback s = Some f ->
  (1 <= length m <= 3)%nat ->
  let packet := ble_midi_packet m in
  let r := run (att_write_callback bat_cccd midi_val midi_cccd
                  con midi_val mode off packet (Z.of_nat (length packet))) s in
  packet = 0x80 :: 0x80 :: m /\
  retval r = 0 /\
  (forall a b c, m = [a; b; c] -> calls r = [rx_callback_call f a b c]) /\
  (forall a b, m = [a; b] -> calls r = [rx_callback_call f a b 0]) /\
  (forall a, m = [a] -> calls r = []).
Proof.
  intros Hb Hc Hf Hlen packet r.
  assert (Hp : packet = 0x80 :: 0x80 :: m)
    by (apply ble_midi_packet_eq; lia).
  destruct (midi_value_write_cases bat_cccd midi_val midi_cccd con mode off
              packet f s Hb Hc Hf) as (Hret & _ & H5 & H4 & H3).
  fold r in Hret, H5, H4, H3.
  split; [exact Hp|]. split; [exact Hret|].
  split; [|split].
  - intros a b c ->. apply (H5 0x80 0x80 a b c []). exact Hp.
  - intros a b ->. apply (H4 0x80 0x80 a b). exact Hp.
  - intros a ->. apply H3. rewrite Hp. simpl. lia.
Qed.

Lemma encode_then_write_witness :
  ble_midi_packet [0x90; 0x3C; 0x64] = [0x80; 0x80; 0x90; 0x3C; 0x64] /\
  calls (run (att_write_callback 11 13 14 64 13 0 0
                (ble_midi_packet [0x90; 0x3C; 0x64])
                (Z.of_nat (length (ble_midi_packet [0x90; 0x3C; 0x64]))))
           (set_rx_callback (Some 7%nat) ble_midi_state))
  = [rx_callback_call 7 0x90 0x3C 0x64].
Proof.
  destruct (encode_then_write 11 13 14 64 0 0 [0x90; 0x3C; 0x64] 7
              (set_rx_callback (Some 7%nat) ble_midi_state))
    as (Hp & _ & H3 & _).
  - discriminate.
  - discriminate.
  - reflexivity.
  - simpl. lia.
  - split; [exact Hp | exact (H3 _ _ _ eq_refl)].
Defined.

(** C1 fails for one-byte messages: the System Real-Time message F8 is
    encoded as 80 80 F8, and writing these three bytes to the MIDI value
    handle does not invoke the registered callback. *)
Lemma roundtrip_one_byte_not_delivered :
  ble_midi_packet [0xF8] = [0x80; 0x80; 0xF8] /\
  calls (run (att_write_callback 11 13 14 64 13 0 0 (ble_midi_packet [0xF8]) 3)
           (set_rx_callback (Some 7%nat) ble_midi_state))
  = [].
Proof. split; reflexivity. Qed.

(** ** The handlers that change the connection state, as equations *)

Lemma packet_handler_connection_complete (channel size h interval : Z) (s : statics) :
  run (packet_handler HCI_EVENT_PACKET channel
         (HCI_SUBEVENT_LE_CONNECTION_COMPLETE h interval) size) s
  = (tt, set_connection_interval interval (set_con_handle h s),
     [gap_request_connection_parameter_update h
        ROKOT_BLE_MIDI_CONN_INTERVAL_MIN ROKOT_BLE_MIDI_CONN_INTERVAL_MAX 0 100]).
Proof. reflexivity. Qed.

Lemma packet_handler_connection_update (channel size interval : Z) (s : statics) :
  run (packet_handler HCI_EVENT_PACKET channel
         (HCI_SUBEVENT_LE_CONNECTION_UPDATE_COMPLETE interval) size) s
  = (tt, set_connection_interval interval s, []).
Proof. reflexivity. Qed.

Lemma packet_handler_disconnection (channel size : Z) (s : statics) :
  run (packet_handler HCI_EVENT_PACKET channel HCI_EVENT_DISCONNECTION_COMPLETE size) s
  = (tt,
     set_connection_interval 0
       (set_battery_notifications_enabled false
          (set_notifications_enabled false
             (set_con_handle HCI_CON_HANDLE_INVALID s))),
     [gap_advertisements_enable 1]).
Proof. reflexivity. Qed.

Lemma att_write_callback_battery_cccd
    (bat_cccd midi_val midi_cccd con mode off : Z) (buffer : list Z) (size : Z)
    (s : statics) :
  run (att_write_callback bat_cccd midi_val midi_cccd con bat_cccd mode off buffer size) s
  = (0,
     set_con_handle con
       (set_battery_notifications_enabled
          (little_endian_read_16 buffer 0
           =? GATT_CLIENT_CHARACTERISTICS_CONFIGURATION_NOTIFICATION) s),
     []).
Proof. unfold att_write_callback. rewrite Z.eqb_refl. reflexivity. Qed.

Lemma att_write_callback_midi_cccd
    (bat_cccd midi_val midi_cccd con mode off : Z) (buffer : list Z) (size : Z)
    (s : statics) :
  midi_cccd <> bat_cccd ->
  run (att_write_callback bat_cccd midi_val midi_cccd con midi_cccd mode off buffer size) s
  = (0,
     set_con_handle con
       (set_notifications_enabled
          (little_endian_read_16 buffer 0
           =? GATT_CLIENT_CHARACTERISTICS_CONFIGURATION_NOTIFICATION) s),
     []).
Proof.
  intros Hne. unfold att_write_callback.
  rewrite (proj2 (Z.eqb_neq _ _) Hne), Z.eqb_refl. reflexivity.
Qed.

(** A write to a handle the callback does not know is a no-op that reports
    success. *)
Lemma att_write_callback_other
    (bat_cccd midi_val midi_cccd con att_handle mode off : Z) (buffer : list Z)
    (size : Z) (s : statics) :
  att_handle <> bat_cccd ->
  att_handle <> midi_cccd ->
  att_handle <> midi_val ->
  run (att_write_callback bat_cccd midi_val midi_cccd con att_handle mode off buffer size) s
  = (0, s, []).
Proof.
  intros H1 H2 H3. unfold att_write_callback.
  rewrite (proj2 (Z.eqb_neq _ _) H1), (proj2 (Z.eqb_neq _ _) H2),
    (proj2 (Z.eqb_neq _ _) H3).
  reflexivity.
Qed.

(** ** Status queries *)

Lemma get_state_disconnected (s : statics) :
  rokot_ble_midi_get_state s = ROKOT_BLE_MIDI_DISCONNECTED <->
  notifications_enabled s = false /\ con_handle s = HCI_CON_HANDLE_INVALID.
Proof.
  unfold rokot_ble_midi_get_state.
  destruct (notifications_enabled s); [split; [discriminate | intros [? _]; discriminate]|].
  destruct (Z.eqb_spec (con_handle s) HCI_CON_HANDLE_INVALID) as [He|Hne]; simpl.
  - split; auto.
  - split; [discriminate | intros [_ ?]; contradiction].
Qed.

Lemma get_state_connected (s : statics) :
  rokot_ble_midi_get_state s = ROKOT_BLE_MIDI_CONNECTED <->
  notifications_enabled s = false /\ con_handle s <> HCI_CON_HANDLE_INVALID.
Proof.
  unfold rokot_ble_midi_get_state.
  destruct (notifications_enabled s); [split; [discriminate | intros [? _]; discriminate]|].
  destruct (Z.eqb_spec (con_handle s) HCI_CON_HANDLE_INVALID) as [He|Hne]; simpl.
  - split; [discriminate | intros [_ ?]; contradiction].
  - split; auto.
Qed.

Lemma get_state_ready (s : statics) :
  rokot_ble_midi_get_state s = ROKOT_BLE_MIDI_READY <-> notifications_enabled s = true.
Proof.
  unfold rokot_ble_midi_get_state.
  destruct (notifications_enabled s); [split; reflexivity|].
  destruct (negb _); split; discriminate.
Qed.

Lemma is_ready_true (s : statics) :
  rokot_ble_midi_is_ready s = true <->
  notifications_enabled s = true /\ con_handle s <> HCI_CON_HANDLE_INVALID.
Proof.
  unfold rokot_ble_midi_is_ready.
  rewrite andb_true_iff, negb_true_iff, Z.eqb_neq. reflexivity.
Qed.

(** ** Sending *)

(** The whole of [send_midi_internal] in terms of [is_ready] and of what
    the transport answers. *)
Lemma send_midi_internal_eq (T : transport) (midi_val : Z) (midi : list Z) (len : Z)
    (s : statics) :
  run (send_midi_internal T midi_val midi len) s
  = if rokot_ble_midi_is_ready s then
      if att_server_can_send_packet_now T (con_handle s) then
        let packet :=
          take (Z.to_nat (encode_ble_midi_packet (replicate 32 0) midi len).2)
            (encode_ble_midi_packet (replicate 32 0) midi len).1 in
        (if att_server_notify_result T (con_handle s) midi_val packet =? 0
         then 0 else -3,
         s, [att_server_notify (con_handle s) midi_val packet])
      else (-2, s, [])
    else (-1, s, []).
Proof.
  unfold send_midi_internal, rokot_ble_midi_is_ready. unfold_M.
  destruct (notifications_enabled s); simpl; [|reflexivity].
  destruct (con_handle s =? HCI_CON_HANDLE_INVALID); simpl; [reflexivity|].
  destruct (att_server_can_send_packet_now T (con_handle s)); reflexivity.
Qed.

Lemma send_midi_internal_not_ready (T : transport) (midi_val : Z) (midi : list Z)
    (len : Z) (s : statics) :
  rokot_ble_midi_is_ready s = false ->
  run (send_midi_internal T midi_val midi len) s = (-1, s, []).
Proof. intros H. rewrite send_midi_internal_eq, H. reflexivity. Qed.

Lemma send_midi_internal_final (T : transport) (midi_val : Z) (midi : list Z)
    (len : Z) (s : statics) :
  final (run (send_midi_internal T midi_val midi len) s) = s.
Proof.
  rewrite send_midi_internal_eq.
  destruct (rokot_ble_midi_is_ready s); [|reflexivity].
  destruct (att_server_can_send_packet_now T (con_handle s)); reflexivity.
Qed.

Lemma send_raw_final (T : transport) (midi_val : Z) (data : list Z) (len : Z)
    (s : statics) :
  final (run (rokot_ble_midi_send_raw T midi_val data len) s) = s.
Proof.
  unfold rokot_ble_midi_send_raw.
  destruct ((len =? 0) || (3 <? len)); [reflexivity|].
  apply send_midi_internal_final.
Qed.

Lemma ignore_final {A : Type} (m : M A) (s : statics) :
  final (run (ignore m) s) = final (run m s).
Proof. unfold_M. destruct (m s) as [[x s'] t]. reflexivity. Qed.

(** ** The connection state machine *)

(** C4. From a disconnected state, link-complete, a MIDI CCCD write with
    the notification value, a MIDI CCCD write with any other value, and a
    disconnect take [rokot_ble_midi_get_state] through CONNECTED, READY,
    CONNECTED and DISCONNECTED; and from any state the disconnect handler
    alone resets the handle, both notification gates and the connection
    interval, touching nothing else. *)
Theorem connection_state_sequence
    (bat_cccd midi_val midi_cccd channel size h interval c1 c2 mode off : Z)
    (disable : list Z) (s0 : statics) :
  midi_cccd <> bat_cccd ->
  rokot_ble_midi_get_state s0 = ROKOT_BLE_MIDI_DISCONNECTED ->
  h <> HCI_CON_HANDLE_INVALID ->
  c1 <> HCI_CON_HANDLE_INVALID ->
  c2 <> HCI_CON_HANDLE_INVALID ->
  little_endian_read_16 disable 0
    <> GATT_CLIENT_CHARACTERISTICS_CONFIGURATION_NOTIFICATION ->
  let write := att_write_callback bat_cccd midi_val midi_cccd in
  let s1 := final (run (packet_handler HCI_EVENT_PACKET channel
                          (HCI_SUBEVENT_LE_CONNECTION_COMPLETE h interval) size) s0) in
  let s2 := final (run (write c1 midi_cccd mode off [0x01; 0x00] 2) s1) in
  let s3 := final (run (write c2 midi_cccd mode off disable
                          (Z.of_nat (length disable))) s2) in
  let s4 := final (run (packet_handler HCI_EVENT_PACKET channel
                          HCI_EVENT_DISCONNECTION_COMPLETE size) s3) in
  (rokot_ble_midi_get_state s1 = ROKOT_BLE_MIDI_CONNECTED /\
   rokot_ble_midi_get_state s2 = ROKOT_BLE_MIDI_READY /\
   rokot_ble_midi_get_state s3 = ROKOT_BLE_MIDI_CONNECTED /\
   rokot_ble_midi_get_state s4 = ROKOT_BLE_MIDI_DISCONNECTED /\
   connection_interval s1 = interval /\
   connection_interval s4 = 0) /\
  (forall s : statics,
      let s' := final (run (packet_handler HCI_EVENT_PACKET channel
                              HCI_EVENT_DISCONNECTION_COMPLETE size) s) in
      con_handle s' = HCI_CON_HANDLE_INVALID /\
      notifications_enabled s' = false /\
      battery_notifications_enabled s' = false /\
      connection_interval s' = 0 /\
      rokot_ble_midi_get_state s' = ROKOT_BLE_MIDI_DISCONNECTED /\
      s' = mk_statics HCI_CON_HANDLE_INVALID false false 0
             (rx_callback s) (hci_event_callback_registration s) (device_name s)
             (manufacturer s) (firmware_version s) (battery_level s)
             (initialized s) (scan_resp_data s) (scan_resp_data_len s)).
Proof.
  intros Hne H0 Hh Hc1 Hc2 Hdis write s1 s2 s3 s4.
  apply get_state_disconnected in H0. destruct H0 as [Hn0 _].
  subst s4 s3 s2 s1 write.
  rewrite !packet_handler_disconnection, packet_handler_connection_complete.
  rewrite !att_write_callback_midi_cccd by assumption.
  apply Z.eqb_neq in Hdis. rewrite Hdis.
  unfold final. simpl.
  split.
  - repeat split.
    + apply get_state_connected. simpl. auto.
    + apply get_state_connected. simpl. auto.
  - intros s. repeat split.
Qed.

Lemma connection_state_sequence_witness :
  let write := att_write_callback 11 13 14 in
  let s1 := final (run (packet_handler HCI_EVENT_PACKET 0
                          (HCI_SUBEVENT_LE_CONNECTION_COMPLETE 64 24) 19)
                     ble_midi_state) in
  let s2 := final (run (write 64 14 0 0 [0x01; 0x00] 2) s1) in
  let s3 := final (run (write 64 14 0 0 [0x00; 0x00] 2) s2) in
  let s4 := final (run (packet_handler HCI_EVENT_PACKET 0
                          HCI_EVENT_DISCONNECTION_COMPLETE 19) s3) in
  rokot_ble_midi_get_state s1 = ROKOT_BLE_MIDI_CONNECTED /\
  rokot_ble_midi_get_state s2 = ROKOT_BLE_MIDI_READY /\
  rokot_ble_midi_get_state s3 = ROKOT_BLE_MIDI_CONNECTED /\
  rokot_ble_midi_get_state s4 = ROKOT_BLE_MIDI_DISCONNECTED /\
  connection_interval s1 = 24 /\
  connection_interval s4 = 0.
Proof.
  refine (proj1 (connection_state_sequence 11 13 14 0 19 64 24 64 64 0 0
                   [0x00; 0x00] ble_midi_state _ _ _ _ _ _)).
  - discriminate.
  - reflexivity.
  - discriminate.
  - discriminate.
  - discriminate.
  - discriminate.
Defined.

(** ** Sending while not ready *)

(** Every send operation goes through [send_midi_internal] unless the raw
    sender rejects its length first. *)
Lemma perform_cases (T : transport) (midi_val : Z) (q : send_request) :
  (raw_length_invalid q = true /\
   perform T midi_val q = mret (-1)) \/
  (raw_length_invalid q = false /\
   exists midi len, perform T midi_val q = send_midi_internal T midi_val midi len).
Proof.
  destruct q; try (right; split; [reflexivity | eexists _, _; reflexivity]).
  simpl. unfold rokot_ble_midi_send_raw.
  destruct ((len =? 0) || (3 <? len)).
  - left. split; reflexivity.
  - right. split; [reflexivity | eexists _, _; reflexivity].
Qed.

(** C5. In a state whose reported state is CONNECTED, each of the six typed
    senders, and the raw sender with a length of one to three, returns -1,
    makes no call to the transport and leaves the state as it was. *)
Theorem send_while_connected_not_ready
    (T : transport) (midi_val : Z) (q : send_request) (s : statics) :
  rokot_ble_midi_get_state s = ROKOT_BLE_MIDI_CONNECTED ->
  raw_length_invalid q = false ->
  run (perform T midi_val q) s = (-1, s, []).
Proof.
  intros Hst Hq. apply get_state_connected in Hst. destruct Hst as [Hn _].
  assert (Hr : rokot_ble_midi_is_ready s = false)
    by (unfold rokot_ble_midi_is_ready; rewrite Hn; reflexivity).
  destruct (perform_cases T midi_val q) as [[Hbad _]|[_ (midi & len & ->)]].
  - congruence.
  - apply send_midi_internal_not_ready. exact Hr.
Qed.

(** A transport that would accept anything: nothing is sent all the same. *)
Lemma send_while_connected_not_ready_witness :
  let T := mk_transport (fun _ => true) (fun _ _ _ => 0) 0 in
  let s := set_con_handle 64 ble_midi_state in
  rokot_ble_midi_get_state s = ROKOT_BLE_MIDI_CONNECTED /\
  run (rokot_ble_midi_note_on T 13 0 60 100) s = (-1, s, []) /\
  run (rokot_ble_midi_send_raw T 13 [0xF8] 1) s = (-1, s, []).
Proof.
  intros T s.
  split; [reflexivity|]. split.
  - exact (send_while_connected_not_ready T 13 (note_on 0 60 100) s eq_refl eq_refl).
  - exact (send_while_connected_not_ready T 13 (send_raw [0xF8] 1) s eq_refl eq_refl).
Defined.

(** ** A notification gate left enabled without a connection *)

(** With no connection, [rokot_ble_midi_is_ready] answers false and every
    sender answers -1 without calling the transport, whatever the gate
    says. *)
Lemma no_connection_not_ready (T : transport) (midi_val : Z) (s : statics) :
  con_handle s = HCI_CON_HANDLE_INVALID ->
  rokot_ble_midi_is_ready s = false /\
  (forall midi len, run (send_midi_internal T midi_val midi len) s = (-1, s, [])) /\
  (forall data len, run (rokot_ble_midi_send_raw T midi_val data len) s = (-1, s, [])).
Proof.
  intros Hc.
  assert (Hr : rokot_ble_midi_is_ready s = false).
  { unfold rokot_ble_midi_is_ready. rewrite Hc.
    destruct (notifications_enabled s); reflexivity. }
  split; [exact Hr|]. split.
  - intros. apply send_midi_internal_not_ready. exact Hr.
  - intros. unfold rokot_ble_midi_send_raw.
    destruct ((len =? 0) || (3 <? len)); [reflexivity|].
    apply send_midi_internal_not_ready. exact Hr.
Qed.

(** [rokot_ble_midi_get_state] reads the gate alone, so what it answers
    without a connection rests on the invariant of the reachable states
    proved below. A state outside them, as a MIDI CCCD write carrying
    [HCI_CON_HANDLE_INVALID] would leave it (the stack passes no such
    handle), shows the difference with [rokot_ble_midi_is_ready] and the
    senders, which look at the handle themselves. *)
Example get_state_ready_without_connection :
  let T := mk_transport (fun _ => true) (fun _ _ _ => 0) 0 in
  let s := final (run (att_write_callback 11 13 14
                         HCI_CON_HANDLE_INVALID 14 0 0 [0x01; 0x00] 2)
                    ble_midi_state) in
  con_handle s = HCI_CON_HANDLE_INVALID /\
  notifications_enabled s = true /\
  rokot_ble_midi_is_ready s = false /\
  retval (run (rokot_ble_midi_note_on T 13 0 60 100) s) = -1 /\
  rokot_ble_midi_is_connected s = false /\
  rokot_ble_midi_get_state s = ROKOT_BLE_MIDI_READY.
Proof. repeat split. Qed.

(** The same on every such state: [rokot_ble_midi_get_state] looks at the
    gate alone. *)
Lemma get_state_ignores_connection (s : statics) :
  notifications_enabled s = true ->
  rokot_ble_midi_get_state s = ROKOT_BLE_MIDI_READY.
Proof. apply get_state_ready. Qed.

(** ** Battery level *)

Lemma clamp_100 (level : Z) : (if 100 <? level then 100 else level) = Z.min level 100.
Proof. destruct (Z.ltb_spec 100 level); lia. Qed.

Lemma set_battery_level_eq (T : transport) (bat_val level : Z) (s : statics) :
  run (rokot_ble_midi_set_battery_level T bat_val level) s
  = (tt, set_battery_level (Z.min level 100) s,
     if battery_notifications_enabled s
        && negb (con_handle s =? HCI_CON_HANDLE_INVALID)
        && att_server_can_send_packet_now T (con_handle s)
     then [att_server_notify (con_handle s) bat_val [Z.min level 100]]
     else []).
Proof.
  unfold rokot_ble_midi_set_battery_level. rewrite clamp_100. unfold_M. simpl.
  destruct (battery_notifications_enabled s
            && negb (con_handle s =? HCI_CON_HANDLE_INVALID)
            && att_server_can_send_packet_now T (con_handle s)); reflexivity.
Qed.

(** C6, as the code has it. The stored level is min(level, 100), which
    [rokot_ble_midi_get_battery_level] then returns, and nothing else in
    the state changes. If the Battery gate is enabled, a connection exists
    and the transport can send now, exactly one notification is made, on
    the Battery Level value handle, with the clamped level as its single
    byte; if the transport cannot send now, or the gate is disabled, or
    there is no connection, no notification is made. *)
Theorem set_battery_level_clamps
    (T : transport) (bat_val level : Z) (s : statics) :
  let r := run (rokot_ble_midi_set_battery_level T bat_val level) s in
  final r = set_battery_level (Z.min level 100) s /\
  rokot_ble_midi_get_battery_level (final r) = Z.min level 100 /\
  (battery_notifications_enabled s = true ->
   con_handle s <> HCI_CON_HANDLE_INVALID ->
   att_server_can_send_packet_now T (con_handle s) = true ->
   calls r = [att_server_notify (con_handle s) bat_val [Z.min level 100]]) /\
  (att_server_can_send_packet_now T (con_handle s) = false -> calls r = []) /\
  (battery_notifications_enabled s = false -> calls r = []) /\
  (con_handle s = HCI_CON_HANDLE_INVALID -> calls r = []).
Proof.
  intros r. subst r. rewrite set_battery_level_eq. unfold final, calls. simpl.
  split; [reflexivity|]. split; [reflexivity|].
  repeat split.
  - intros -> Hc ->. apply Z.eqb_neq in Hc. rewrite Hc. reflexivity.
  - intros ->. rewrite andb_false_r. reflexivity.
  - intros ->. reflexivity.
  - intros ->. rewrite Z.eqb_refl, andb_false_r. reflexivity.
Qed.

Lemma set_battery_level_clamps_witness :
  let T := mk_transport (fun _ => true) (fun _ _ _ => 0) 0 in
  let s := set_con_handle 64 (set_battery_notifications_enabled true ble_midi_state) in
  let r := run (rokot_ble_midi_set_battery_level T 12 150) s in
  rokot_ble_midi_get_battery_level (final r) = 100 /\
  calls r = [att_server_notify 64 12 [100]].
Proof.
  intros T s r.
  destruct (set_battery_level_clamps T 12 150 s) as (_ & Hget & Hsend & _).
  split; [exact Hget|].
  apply Hsend; [reflexivity | discriminate | reflexivity].
Defined.

(** C6 fails when the transport is busy: with the Battery gate enabled and
    a connection present, [rokot_ble_midi_set_battery_level(150)] stores
    100 and makes no notification call. *)
Lemma battery_notification_skipped_when_busy :
  let T := mk_transport (fun _ => false) (fun _ _ _ => 0) 0 in
  let s := set_con_handle 64 (set_battery_notifications_enabled true ble_midi_state) in
  let r := run (rokot_ble_midi_set_battery_level T 12 150) s in
  battery_notifications_enabled s = true /\
  con_handle s <> HCI_CON_HANDLE_INVALID /\
  battery_level (final r) = 100 /\
  calls r = [].
Proof. repeat split. discriminate. Qed.

(** ** Advertising data *)

(** The advertising data is what the handler gives the stack once the
    controller is up. *)
Lemma adv_data_is_advertised (channel size : Z) (s : statics) :
  In (gap_advertisements_set_data adv_data)
    (calls (run (packet_handler HCI_EVENT_PACKET channel
                   (BTSTACK_EVENT_STATE HCI_STATE_WORKING) size) s)).
Proof. simpl. right. left. reflexivity. Qed.

(** C7, as the code has it. The advertising data is a three-byte flags
    record (length 2, type Flags, value 0x06) followed by an eighteen-byte
    record (length 0x11, type Complete List of 128-bit Service UUIDs) that
    carries the BLE-MIDI service UUID with its bytes reversed; together
    these are 21 bytes, which is also the size given to the stack. *)
Theorem adv_data_layout :
  let flags := [0x02; BLUETOOTH_DATA_TYPE_FLAGS; APP_AD_FLAGS] in
  let uuids :=
    0x11 :: BLUETOOTH_DATA_TYPE_COMPLETE_LIST_OF_128_BIT_SERVICE_CLASS_UUIDS
         :: rev BLE_MIDI_SERVICE_UUID in
  adv_data = flags ++ uuids /\
  length flags = 3%nat /\
  length uuids = 18%nat /\
  length adv_data = 21%nat /\
  sizeof_adv_data = 21.
Proof. repeat split. Qed.

(** C7 fails on the total: the advertising data is not 20 bytes long. *)
Lemma adv_data_length_not_20 : length adv_data <> 20%nat.
Proof. discriminate. Qed.

(** ** Pitch bend *)

Lemma land_0x7F (x : Z) : Z.land x 0x7F = x mod 128.
Proof. change 0x7F with (Z.ones 7). rewrite Z.land_ones by lia. reflexivity. Qed.

Lemma shiftr_7 (x : Z) : Z.shiftr x 7 = x / 128.
Proof. rewrite Z.shiftr_div_pow2 by lia. reflexivity. Qed.

(** Over the documented range the two data bytes are the low and the high
    seven bits of [value + 8192]. *)
Lemma pitch_bend_midi_split (channel value : Z) :
  -8192 <= value <= 8191 ->
  pitch_bend_midi channel value
  = [u8 (Z.lor MIDI_PITCH_BEND (Z.land channel 0x0F));
     (value + 8192) mod 128;
     (value + 8192) / 128].
Proof.
  intros Hv. unfold pitch_bend_midi.
  rewrite u16_small by lia.
  rewrite !land_0x7F, shiftr_7.
  assert (H1 : 0 <= (value + 8192) mod 128 < 128) by (apply Z.mod_pos_bound; lia).
  assert (H2 : 0 <= (value + 8192) / 128 < 128).
  { split; [apply Z.div_pos; lia | apply Z.div_lt_upper_bound; lia]. }
  rewrite (Z.mod_small ((value + 8192) / 128)) by lia.
  rewrite (u8_small ((value + 8192) mod 128)) by lia.
  rewrite (u8_small ((value + 8192) / 128)) by lia.
  reflexivity.
Qed.

(** What a sender hands to the transport in a READY state that can send:
    one notification on the MIDI value handle, 80 80 followed by the
    message. *)
Lemma send_midi_internal_ready (T : transport) (midi_val : Z) (midi : list Z)
    (s : statics) :
  rokot_ble_midi_is_ready s = true ->
  att_server_can_send_packet_now T (con_handle s) = true ->
  (length midi <= 30)%nat ->
  calls (run (send_midi_internal T midi_val midi (Z.of_nat (length midi))) s)
  = [att_server_notify (con_handle s) midi_val (0x80 :: 0x80 :: midi)].
Proof.
  intros Hr Hc Hlen. rewrite send_midi_internal_eq, Hr, Hc.
  unfold calls. cbv zeta. cbn [snd].
  pose proof (encode_ble_midi_packet_prefix (replicate 32 0) midi eq_refl Hlen) as H.
  destruct (encode_ble_midi_packet _ _ _) as [packet packet_len].
  destruct H as [_ H]. cbn [fst snd]. rewrite H. reflexivity.
Qed.

(** C8. [rokot_ble_midi_pitch_bend] sends the status byte followed by the
    low and then the high seven bits of [value + 8192]: -8192 gives the
    data bytes (0, 0), 0 gives (0x00, 0x40) and 8191 gives (0x7F, 0x7F);
    for every value from -8192 to 8191 the two data bytes are below 128 and
    [lsb + 128 * msb = value + 8192]. *)
Theorem pitch_bend_bias
    (T : transport) (midi_val channel : Z) (s : statics) :
  let status := u8 (Z.lor MIDI_PITCH_BEND (Z.land channel 0x0F)) in
  pitch_bend_midi channel (-8192) = [status; 0; 0] /\
  pitch_bend_midi channel 0 = [status; 0x00; 0x40] /\
  pitch_bend_midi channel 8191 = [status; 0x7F; 0x7F] /\
  (forall value,
      -8192 <= value <= 8191 ->
      exists lsb msb,
        pitch_bend_midi channel value = [status; lsb; msb] /\
        0 <= lsb < 128 /\ 0 <= msb < 128 /\
        lsb + 128 * msb = value + 8192) /\
  (forall value,
      rokot_ble_midi_is_ready s = true ->
      att_server_can_send_packet_now T (con_handle s) = true ->
      calls (run (rokot_ble_midi_pitch_bend T midi_val channel value) s)
      = [att_server_notify (con_handle s) midi_val
           (0x80 :: 0x80 :: pitch_bend_midi channel value)]).
Proof.
  intros status.
  split; [reflexivity|]. split; [reflexivity|]. split; [reflexivity|].
  split.
  - intros value Hv. exists ((value + 8192) mod 128), ((value + 8192) / 128).
    split; [apply pitch_bend_midi_split; exact Hv|].
    split; [apply Z.mod_pos_bound; lia|].
    split; [split; [apply Z.div_pos; lia | apply Z.div_lt_upper_bound; lia]|].
    pose proof (Z.div_mod (value + 8192) 128). lia.
  - intros value Hr Hc. unfold rokot_ble_midi_pitch_bend.
    apply (send_midi_internal_ready T midi_val (pitch_bend_midi channel value) s Hr Hc).
    simpl. lia.
Qed.

Lemma pitch_bend_bias_witness :
  let T := mk_transport (fun _ => true) (fun _ _ _ => 0) 0 in
  let s := set_con_handle 64 (set_notifications_enabled true ble_midi_state) in
  (exists lsb msb,
      pitch_bend_midi 0 (-1) = [0xE0; lsb; msb] /\
      0 <= lsb < 128 /\ 0 <= msb < 128 /\ lsb + 128 * msb = -1 + 8192) /\
  calls (run (rokot_ble_midi_pitch_bend T 13 0 8191) s)
  = [att_server_notify 64 13 [0x80; 0x80; 0xE0; 0x7F; 0x7F]].
Proof.
  intros T s.
  destruct (pitch_bend_bias T 13 0 s) as (_ & _ & _ & Hsplit & Hsend).
  split.
  - apply Hsplit. lia.
  - apply Hsend; reflexivity.
Defined.

(** ** Return codes of the send operations *)

Lemma perform_eq (T : transport) (midi_val : Z) (q : send_request) (s : statics) :
  exists packet,
    run (perform T midi_val q) s
    = if raw_length_invalid q then (-1, s, [])
      else if rokot_ble_midi_is_ready s then
        if att_server_can_send_packet_now T (con_handle s) then
          (if att_server_notify_result T (con_handle s) midi_val packet =? 0
           then 0 else -3,
           s, [att_server_notify (con_handle s) midi_val packet])
        else (-2, s, [])
      else (-1, s, []).
Proof.
  destruct (perform_cases T midi_val q) as [[-> ->]|[-> (midi & len & ->)]].
  - exists []. reflexivity.
  - eexists. apply send_midi_internal_eq.
Qed.

(** C9, as the code has it. Every send operation leaves the state alone
    and returns 0, -1, -2 or -3: -1 when the raw sender is given a length
    outside 1 to 3 and also when the library is not ready; -2 when it is
    ready but the transport cannot send now; 0 or -3 once a notification
    has been handed to the transport, 0 exactly when the transport accepted
    it. Codes -1 and -2 come with no notification. *)
Theorem send_return_codes
    (T : transport) (midi_val : Z) (q : send_request) (s : statics) :
  let r := run (perform T midi_val q) s in
  let code := retval r in
  final r = s /\
  (code = 0 \/ code = -1 \/ code = -2 \/ code = -3) /\
  (code = -1 <->
   raw_length_invalid q = true \/ rokot_ble_midi_is_ready s = false) /\
  (code = -2 <->
   raw_length_invalid q = false /\ rokot_ble_midi_is_ready s = true /\
   att_server_can_send_packet_now T (con_handle s) = false) /\
  (code = 0 \/ code = -3 <->
   raw_length_invalid q = false /\ rokot_ble_midi_is_ready s = true /\
   att_server_can_send_packet_now T (con_handle s) = true) /\
  (code = 0 \/ code = -3 ->
   exists packet,
     calls r = [att_server_notify (con_handle s) midi_val packet] /\
     (code = 0 <-> att_server_notify_result T (con_handle s) midi_val packet = 0)) /\
  (code = -1 \/ code = -2 -> calls r = []).
Proof.
  intros r code. subst code r.
  destruct (perform_eq T midi_val q s) as [packet ->].
  destruct (raw_length_invalid q);
    [|destruct (rokot_ble_midi_is_ready s);
      [destruct (att_server_can_send_packet_now T (con_handle s));
       [destruct (Z.eqb_spec (att_server_notify_result T (con_handle s) midi_val packet) 0)
          as [He|Hne]|]|]];
    unfold retval, final, calls; simpl;
    (split; [reflexivity|]);
    (split; [lia|]);
    (split; [split; [try lia; auto | intros [?|?]; congruence || lia]|]);
    (split; [split; [try lia; auto | intros (? & ? & ?); congruence || lia]|]);
    (split; [split; [try lia; auto | intros (? & ? & ?); congruence || lia]|]);
    (split; [try (intros [?|?]; lia) | try (intros [?|?]; (reflexivity || lia))]).
  - intros _. exists packet. split; [reflexivity|]. split; auto.
  - intros _. exists packet. split; [reflexivity|]. split; [lia | intros; contradiction].
Qed.

Lemma send_return_codes_witness :
  let T := mk_transport (fun _ => true) (fun _ _ _ => 0) 0 in
  let s := set_con_handle 64 (set_notifications_enabled true ble_midi_state) in
  let r := run (perform T 13 (note_on 0 60 100)) s in
  retval r = 0 /\
  exists packet,
    calls r = [att_server_notify 64 13 packet] /\
    (retval r = 0 <-> att_server_notify_result T 64 13 packet = 0).
Proof.
  intros T s r.
  destruct (send_return_codes T 13 (note_on 0 60 100) s)
    as (_ & _ & _ & _ & _ & Hsent & _).
  split; [reflexivity|].
  apply Hsent. left. reflexivity.
Defined.

(** C9 fails on the last point: the raw sender given a length outside 1 to
    3, in a READY state, returns -1, which is also what a sender returns
    when the library is not ready. *)
Lemma invalid_length_code_is_not_ready_code :
  let T := mk_transport (fun _ => true) (fun _ _ _ => 0) 0 in
  let ready := set_con_handle 64 (set_notifications_enabled true ble_midi_state) in
  let connected := set_con_handle 64 ble_midi_state in
  rokot_ble_midi_is_ready ready = true /\
  rokot_ble_midi_is_ready connected = false /\
  retval (run (rokot_ble_midi_send_raw T 13 [] 0) ready) = -1 /\
  retval (run (rokot_ble_midi_send_raw T 13 [0x90; 0x3C; 0x64; 0x00] 4) ready) = -1 /\
  retval (run (rokot_ble_midi_note_on T 13 0 60 100) connected) = -1 /\
  retval (run (rokot_ble_midi_send_raw T 13 [] 0) ready)
  = retval (run (rokot_ble_midi_note_on T 13 0 60 100) connected).
Proof. repeat split. Qed.

(** ** The invariant of the reachable states *)

(** The handlers and the API leave the three connection fields alone,
    clear all three, or record a handle together with a gate. *)
Lemma dispatch_connection_fields
    (T : transport) (bat_val bat_cccd midi_val midi_cccd : Z) (i : input)
    (s : statics) :
  let s' := final (run (dispatch T bat_val bat_cccd midi_val midi_cccd i) s) in
  (con_handle s' = con_handle s /\
   notifications_enabled s' = notifications_enabled s /\
   battery_notifications_enabled s' = battery_notifications_enabled s) \/
  (con_handle s' = HCI_CON_HANDLE_INVALID /\
   notifications_enabled s' = false /\
   battery_notifications_enabled s' = false) \/
  match i with
  | in_packet _ _ (HCI_SUBEVENT_LE_CONNECTION_COMPLETE h _) _ => con_handle s' = h
  | in_att_write h _ _ _ _ _ => con_handle s' = h
  | _ => False
  end.
Proof.
  destruct i as [packet_type channel packet size
                | h att_handle mode off buffer size
                | name | | name | version | level | q | callback];
    cbv zeta.
  - unfold dispatch, packet_handler.
    destruct (negb (packet_type =? HCI_EVENT_PACKET)); [left; repeat split|].
    destruct packet as [state| h interval | interval | | | ].
    + destruct (state =? HCI_STATE_WORKING) eqn:Hw; left;
        unfold_M; simpl; rewrite ?Hw; repeat split.
    + right. right. reflexivity.
    + left. repeat split.
    + left. repeat split.
    + right. left. repeat split.
    + left. repeat split.
  - unfold dispatch. rewrite ignore_final. unfold att_write_callback.
    destruct (att_handle =? bat_cccd);
      [right; right; reflexivity|].
    destruct (att_handle =? midi_cccd);
      [right; right; reflexivity|].
    left. destruct (att_handle =? midi_val); [|repeat split].
    unfold_M. simpl.
    destruct (2 <? size), (rx_callback s); try (repeat split; fail).
    destruct (5 <=? size); [repeat split|].
    destruct (4 <=? size); repeat split.
  - left. unfold dispatch. rewrite ignore_final.
    unfold rokot_ble_midi_init, build_scan_response. unfold_M. simpl.
    destruct (initialized s); [repeat split|]. simpl.
    destruct (negb (cyw43_arch_init_result T =? 0)); repeat split.
  - unfold dispatch, rokot_ble_midi_deinit. unfold_M. simpl.
    destruct (negb (initialized s)); [left | right; left]; repeat split.
  - left. repeat split.
  - left. repeat split.
  - left. unfold dispatch. rewrite set_battery_level_eq. repeat split.
  - left. unfold dispatch. rewrite ignore_final.
    destruct (perform_eq T midi_val q s) as [packet ->].
    destruct (raw_length_invalid q); [repeat split|].
    destruct (rokot_ble_midi_is_ready s); [|repeat split].
    destruct (att_server_can_send_packet_now T (con_handle s)); repeat split.
  - left. repeat split.
Qed.

Lemma dispatch_preserves_invariant
    (T : transport) (bat_val bat_cccd midi_val midi_cccd : Z) (i : input)
    (s : statics) :
  gates_imply_connection s ->
  valid_input i ->
  gates_imply_connection (final (run (dispatch T bat_val bat_cccd midi_val midi_cccd i) s)).
Proof.
  intros Hinv Hvalid.
  destruct (dispatch_connection_fields T bat_val bat_cccd midi_val midi_cccd i s)
    as [(Hc & Hn & Hb) | [(Hc & Hn & Hb) | Hi]];
    unfold gates_imply_connection.
  - rewrite Hc, Hn, Hb. exact Hinv.
  - rewrite Hn, Hb. intros [?|?]; discriminate.
  - intros _.
    destruct i as [? ? [] ?| | | | | | | |]; try contradiction;
      rewrite Hi; exact Hvalid.
Qed.

Lemma reachable_invariant
    (T : transport) (bat_val bat_cccd midi_val midi_cccd : Z) (s : statics) :
  reachable T bat_val bat_cccd midi_val midi_cccd s -> gates_imply_connection s.
Proof.
  induction 1 as [|s i _ IH Hvalid].
  - intros [?|?]; discriminate.
  - apply dispatch_preserves_invariant; assumption.
Qed.

(** C10. In every state reachable from the initial one through events of
    the stack that carry valid connection handles and through calls of the
    public API, an enabled MIDI or Battery notification gate comes with a
    connection handle other than [HCI_CON_HANDLE_INVALID]; so there
    [rokot_ble_midi_get_state] returns READY exactly when
    [rokot_ble_midi_is_ready] returns true. *)
Theorem reachable_gate_implies_connection
    (T : transport) (bat_val bat_cccd midi_val midi_cccd : Z) (s : statics) :
  reachable T bat_val bat_cccd midi_val midi_cccd s ->
  (notifications_enabled s = true \/ battery_notifications_enabled s = true ->
   con_handle s <> HCI_CON_HANDLE_INVALID) /\
  (rokot_ble_midi_get_state s = ROKOT_BLE_MIDI_READY <->
   rokot_ble_midi_is_ready s = true).
Proof.
  intros Hreach.
  pose proof (reachable_invariant _ _ _ _ _ _ Hreach) as Hinv.
  split; [exact Hinv|].
  rewrite get_state_ready, is_ready_true.
  split; [|intros [? _]; assumption].
  intros Hn. split; [exact Hn|]. apply Hinv. left. exact Hn.
Qed.

(** After link-complete on handle 64 and a MIDI CCCD write enabling
    notifications, the gate is enabled, the handle is recorded, and the two
    readiness queries agree. *)
Lemma reachable_gate_implies_connection_witness :
  let T := mk_transport (fun _ => true) (fun _ _ _ => 0) 0 in
  let s1 := final (run (dispatch T 12 11 13 14
                          (in_packet HCI_EVENT_PACKET 0
                             (HCI_SUBEVENT_LE_CONNECTION_COMPLETE 64 24) 19))
                     ble_midi_state) in
  let s2 := final (run (dispatch T 12 11 13 14
                          (in_att_write 64 14 0 0 [0x01; 0x00] 2)) s1) in
  notifications_enabled s2 = true /\
  (notifications_enabled s2 = true \/ battery_notifications_enabled s2 = true ->
   con_handle s2 <> HCI_CON_HANDLE_INVALID) /\
  (rokot_ble_midi_get_state s2 = ROKOT_BLE_MIDI_READY <->
   rokot_ble_midi_is_ready s2 = true).
Proof.
  intros T s1 s2. split; [reflexivity|].
  apply (reachable_gate_implies_connection T 12 11 13 14 s2).
  refine (reachable_step T 12 11 13 14 s1 (in_att_write 64 14 0 0 [0x01; 0x00] 2) _ _).
  - refine (reachable_step T 12 11 13 14 ble_midi_state
              (in_packet HCI_EVENT_PACKET 0
                 (HCI_SUBEVENT_LE_CONNECTION_COMPLETE 64 24) 19) _ _).
    + apply reachable_initial.
    + simpl. discriminate.
  - simpl. discriminate.
Defined.



(** * Further properties of the library *)

(** ** A two-byte header followed by a copy *)

(** Both [encode_ble_midi_packet] and [build_scan_response] write two bytes
    and copy [n] bytes behind them; inside the buffer the first [n + 2]
    bytes are then the header and the first [n] bytes of the source, and
    the buffer keeps its size. *)
Lemma header_then_memcpy (dst src : list Z) (a b : Z) (n : nat) :
  (n + 2 <= length dst)%nat ->
  (n <= length src)%nat ->
  take (n + 2) (memcpy (<[1%nat := b]> (<[0%nat := a]> dst)) 2 src n)
  = a :: b :: take n src.
Proof.
  intros Hdst Hsrc.
  rewrite memcpy_take_drop by (rewrite ?length_insert; lia).
  destruct dst as [|d0 [|d1 dst]]; [simpl in Hdst; lia ..|].
  change (take 2 (<[1%nat:=b]> (<[0%nat:=a]> (d0 :: d1 :: dst)))) with [a; b].
  rewrite app_assoc.
  apply (take_app_length' ([a; b] ++ take n src)).
  rewrite length_app, length_take. simpl. lia.
Qed.

Lemma encode_ble_midi_packet_take (dst midi : list Z) (n : nat) :
  length dst = 32%nat ->
  (n <= 30)%nat ->
  (n <= length midi)%nat ->
  (encode_ble_midi_packet dst midi (Z.of_nat n)).2 = Z.of_nat n + 2 /\
  take (Z.to_nat (encode_ble_midi_packet dst midi (Z.of_nat n)).2)
    (encode_ble_midi_packet dst midi (Z.of_nat n)).1
  = 0x80 :: 0x80 :: take n midi.
Proof.
  intros Hdst Hn Hmidi. unfold encode_ble_midi_packet. cbn [fst snd].
  rewrite u16_small by lia. split; [reflexivity|].
  rewrite Nat2Z.id.
  replace (Z.to_nat (Z.of_nat n + 2)) with (n + 2)%nat by lia.
  apply header_then_memcpy; lia.
Qed.

(** ** Scan response *)

Lemma min_29 (name : list Z) :
  (if 29 <? Z.of_nat (length name) then 29 else Z.of_nat (length name))
  = Z.of_nat (Nat.min (length name) 29).
Proof. destruct (Z.ltb_spec 29 (Z.of_nat (length name))); lia. Qed.

Lemma build_scan_response_fields (name : list Z) (s : statics) :
  let n := Nat.min (length name) 29 in
  let s' := final (run (build_scan_response name) s) in
  scan_resp_data s'
  = memcpy (<[1%nat := BLUETOOTH_DATA_TYPE_COMPLETE_LOCAL_NAME]>
              (<[0%nat := u8 (Z.of_nat n + 1)]> (scan_resp_data s))) 2 name n /\
  scan_resp_data_len s' = u8 (Z.of_nat n + 2) /\
  s' = set_scan_resp_data_len (scan_resp_data_len s')
         (set_scan_resp_data (scan_resp_data s') s) /\
  calls (run (build_scan_response name) s) = [].
Proof.
  intros n s'. subst s'. unfold build_scan_response.
  rewrite min_29. fold n. rewrite Nat2Z.id.
  destruct s. repeat split.
Qed.

Lemma scan_response_built (name : list Z) (s : statics) :
  length (scan_resp_data s) = 32%nat ->
  let s' := final (run (build_scan_response name) s) in
  take (Z.to_nat (scan_resp_data_len s')) (scan_resp_data s')
  = scan_response_record name /\
  scan_resp_data_len s' = Z.of_nat (length (scan_response_record name)) /\
  2 <= scan_resp_data_len s' <= 31 /\
  byte_at (scan_resp_data s') 0 = scan_resp_data_len s' - 1 /\
  length (scan_resp_data s') = 32%nat.
Proof.
  intros Hlen s'.
  destruct (build_scan_response_fields name s) as (Hd & Hl & _ & _).
  fold s' in Hd, Hl.
  set (n := Nat.min (length name) 29) in *.
  assert (Hn : (n <= 29)%nat) by (subst n; lia).
  assert (Hn' : (n <= length name)%nat) by (subst n; lia).
  rewrite u8_small in Hl by lia. rewrite u8_small in Hd by lia.
  assert (Htake : take 29 name = take n name).
  { subst n. destruct (Nat.le_gt_cases (length name) 29) as [Hle|Hgt].
    - rewrite Nat.min_l by lia. rewrite !take_ge by lia. reflexivity.
    - rewrite Nat.min_r by lia. reflexivity. }
  assert (Hrec : take (n + 2) (scan_resp_data s') = scan_response_record name).
  { rewrite Hd. unfold scan_response_record. fold n. rewrite Htake.
    apply header_then_memcpy; lia. }
  rewrite Hl. replace (Z.to_nat (Z.of_nat n + 2)) with (n + 2)%nat by lia.
  split; [exact Hrec|].
  split.
  { unfold scan_response_record. fold n. rewrite Htake. simpl length.
    rewrite length_take. lia. }
  split; [lia|].
  split.
  - assert (H0 : take (n + 2) (scan_resp_data s') !! 0%nat
                 = Some (Z.of_nat n + 1)) by (rewrite Hrec; reflexivity).
    rewrite lookup_take_lt in H0 by lia.
    unfold byte_at. rewrite H0. simpl. lia.
  - rewrite Hd, memcpy_length, !length_insert. exact Hlen.
Qed.

(** X1. [build_scan_response] leaves in the 32-byte buffer one well-formed
    record: a length byte that counts the type byte and the name, the type
    Complete Local Name, and the name cut to 29 bytes. The recorded length
    is the size of that record, at most 31, and the buffer is not
    overrun. *)
Theorem build_scan_response_record (name : list Z) (s : statics) :
  length (scan_resp_data s) = 32%nat ->
  let s' := final (run (build_scan_response name) s) in
  take (Z.to_nat (scan_resp_data_len s')) (scan_resp_data s')
  = scan_response_record name /\
  scan_resp_data_len s' = Z.of_nat (length (scan_response_record name)) /\
  2 <= scan_resp_data_len s' <= 31 /\
  byte_at (scan_resp_data s') 0 = scan_resp_data_len s' - 1 /\
  length (scan_resp_data s') = 32%nat.
Proof. exact (scan_response_built name s). Qed.

Lemma build_scan_response_record_witness :
  let name := [82; 111; 107; 111; 84; 32; 77; 73; 68; 73] in
  let s' := final (run (build_scan_response name) ble_midi_state) in
  take (Z.to_nat (scan_resp_data_len s')) (scan_resp_data s')
  = [11; 0x09; 82; 111; 107; 111; 84; 32; 77; 73; 68; 73] /\
  scan_resp_data_len s' = 12.
Proof.
  intros name s'.
  destruct (build_scan_response_record name ble_midi_state eq_refl)
    as (Hrec & Hlen & _).
  split; [exact Hrec | exact Hlen].
Defined.

(** ** Initialisation and shutdown *)

Lemma init_already_initialized (T : transport) (name : list Z) (s : statics) :
  initialized s = true ->
  run (rokot_ble_midi_init T name) s = (-1, s, []).
Proof. intros H. unfold rokot_ble_midi_init. unfold_M. rewrite H. reflexivity. Qed.

Lemma init_not_initialized (T : transport) (name : list Z) (s : statics) :
  initialized s = false ->
  run (rokot_ble_midi_init T name) s
  = if cyw43_arch_init_result T =? 0
    then (0,
          set_initialized true
            (set_hci_event_callback_registration true (named name s)),
          [cyw43_arch_init; l2cap_init; sm_init; att_server_init;
           hci_add_event_handler; att_server_register_packet_handler;
           hci_power_control HCI_POWER_ON])
    else (-2, named name s, [cyw43_arch_init]).
Proof.
  intros H. unfold rokot_ble_midi_init, named, build_scan_response. unfold_M.
  rewrite H. destruct s. simpl.
  destruct (cyw43_arch_init_result T =? 0); reflexivity.
Qed.

Lemma named_fields (name : list Z) (s : statics) :
  scan_resp_data (named name s)
  = scan_resp_data (final (run (build_scan_response name) s)) /\
  scan_resp_data_len (named name s)
  = scan_resp_data_len (final (run (build_scan_response name) s)) /\
  device_name (named name s) = take 31 name /\
  con_handle (named name s) = con_handle s /\
  notifications_enabled (named name s) = notifications_enabled s /\
  battery_notifications_enabled (named name s) = battery_notifications_enabled s /\
  connection_interval (named name s) = connection_interval s /\
  rx_callback (named name s) = rx_callback s /\
  hci_event_callback_registration (named name s) = hci_event_callback_registration s /\
  manufacturer (named name s) = manufacturer s /\
  firmware_version (named name s) = firmware_version s /\
  battery_level (named name s) = battery_level s /\
  initialized (named name s) = initialized s.
Proof. destruct s. repeat split. Qed.

(** X2. A first [rokot_ble_midi_init] with a working driver returns 0,
    brings the stack up in a fixed order, stores at most 31 bytes of the
    name and marks the library initialised, without touching the
    connection state, the callback or the device profile; any further
    [rokot_ble_midi_init] is then refused with -1 and changes nothing. *)
Theorem init_once (T T' : transport) (name name' : list Z) (s : statics) :
  initialized s = false ->
  cyw43_arch_init_result T = 0 ->
  let r := run (rokot_ble_midi_init T name) s in
  retval r = 0 /\
  calls r = [cyw43_arch_init; l2cap_init; sm_init; att_server_init;
             hci_add_event_handler; att_server_register_packet_handler;
             hci_power_control HCI_POWER_ON] /\
  initialized (final r) = true /\
  device_name (final r) = take 31 name /\
  (con_handle (final r) = con_handle s /\
   notifications_enabled (final r) = notifications_enabled s /\
   battery_notifications_enabled (final r) = battery_notifications_enabled s /\
   connection_interval (final r) = connection_interval s /\
   rx_callback (final r) = rx_callback s /\
   manufacturer (final r) = manufacturer s /\
   firmware_version (final r) = firmware_version s /\
   battery_level (final r) = battery_level s) /\
  run (rokot_ble_midi_init T' name') (final r) = (-1, final r, []).
Proof.
  intros Hi Hd r. subst r. rewrite init_not_initialized by exact Hi.
  rewrite Hd. change (0 =? 0) with true. cbv iota.
  unfold retval, final, calls. cbn [fst snd].
  destruct (named_fields name s)
    as (_ & _ & Hn & H1 & H2 & H3 & H4 & H5 & _ & H6 & H7 & H8 & _).
  split; [reflexivity|]. split; [reflexivity|]. split; [reflexivity|].
  split; [exact Hn|].
  split; [repeat split; assumption|].
  apply init_already_initialized. reflexivity.
Qed.

Lemma init_once_witness :
  let T := mk_transport (fun _ => true) (fun _ _ _ => 0) 0 in
  let r := run (rokot_ble_midi_init T [82; 111; 107; 111; 84]) ble_midi_state in
  retval r = 0 /\
  initialized (final r) = true /\
  run (rokot_ble_midi_init T [77; 73; 68; 73]) (final r) = (-1, final r, []).
Proof.
  intros T r.
  destruct (init_once T T [82; 111; 107; 111; 84] [77; 73; 68; 73] ble_midi_state
              eq_refl eq_refl) as (H0 & _ & Hi & _ & _ & Hagain).
  split; [exact H0|]. split; [exact Hi | exact Hagain].
Defined.

(** X3. When the radio driver fails to start, [rokot_ble_midi_init]
    returns -2 after that one call: the Bluetooth stack is not touched, no
    event handler is registered and the library stays uninitialised, so a
    later attempt with a working driver succeeds. The name and the scan
    response have been stored by then. *)
Theorem init_driver_failure (T T' : transport) (name name' : list Z) (s : statics) :
  initialized s = false ->
  cyw43_arch_init_result T <> 0 ->
  let r := run (rokot_ble_midi_init T name) s in
  retval r = -2 /\
  calls r = [cyw43_arch_init] /\
  initialized (final r) = false /\
  hci_event_callback_registration (final r) = hci_event_callback_registration s /\
  device_name (final r) = take 31 name /\
  (cyw43_arch_init_result T' = 0 ->
   retval (run (rokot_ble_midi_init T' name') (final r)) = 0 /\
   initialized (final (run (rokot_ble_midi_init T' name') (final r))) = true).
Proof.
  intros Hi Hd r. subst r. rewrite init_not_initialized by exact Hi.
  apply Z.eqb_neq in Hd. rewrite Hd.
  unfold retval, final, calls. cbn [fst snd].
  destruct (named_fields name s)
    as (_ & _ & Hn & _ & _ & _ & _ & _ & Hreg & _ & _ & _ & Hinit).
  split; [reflexivity|]. split; [reflexivity|].
  split; [rewrite Hinit; exact Hi|].
  split; [exact Hreg|]. split; [exact Hn|].
  intros Hok.
  rewrite init_not_initialized by (rewrite Hinit; exact Hi).
  rewrite Hok. split; reflexivity.
Qed.

Lemma init_driver_failure_witness :
  let broken := mk_transport (fun _ => true) (fun _ _ _ => 0) (-1) in
  let working := mk_transport (fun _ => true) (fun _ _ _ => 0) 0 in
  let r := run (rokot_ble_midi_init broken [82; 111; 107; 111; 84]) ble_midi_state in
  retval r = -2 /\
  calls r = [cyw43_arch_init] /\
  retval (run (rokot_ble_midi_init working [82; 111; 107; 111; 84]) (final r)) = 0.
Proof.
  intros broken working r.
  destruct (init_driver_failure broken working [82; 111; 107; 111; 84]
              [82; 111; 107; 111; 84] ble_midi_state eq_refl)
    as (H2 & Hc & _ & _ & _ & Hretry).
  - discriminate.
  - split; [exact H2|]. split; [exact Hc|]. apply Hretry. reflexivity.
Defined.

(** X4. Once the controller reports that it is working, the handler sets
    the advertising parameters, hands over the 21 bytes of [adv_data] and
    the scan response built from the name given to [rokot_ble_midi_init],
    and enables advertising, in this order and without changing the
    state. *)
Theorem init_then_advertise
    (T : transport) (name : list Z) (channel size : Z) (s : statics) :
  initialized s = false ->
  length (scan_resp_data s) = 32%nat ->
  let s1 := final (run (rokot_ble_midi_init T name) s) in
  run (packet_handler HCI_EVENT_PACKET channel
         (BTSTACK_EVENT_STATE HCI_STATE_WORKING) size) s1
  = (tt, s1,
     [gap_advertisements_set_params 0x0020 0x0040 0 0 [0; 0; 0; 0; 0; 0] 0x07 0x00;
      gap_advertisements_set_data adv_data;
      gap_scan_response_set_data (scan_response_record name);
      gap_advertisements_enable 1]).
Proof.
  intros Hi Hlen s1.
  assert (Hscan : take (Z.to_nat (scan_resp_data_len s1)) (scan_resp_data s1)
                  = scan_response_record name).
  { destruct (scan_response_built name s Hlen) as (Hrec & _).
    destruct (named_fields name s) as (Hd & Hl & _).
    subst s1. rewrite init_not_initialized by exact Hi.
    destruct (cyw43_arch_init_result T =? 0); unfold final at 1 2; cbn [fst snd].
    - change (scan_resp_data (set_initialized true
                (set_hci_event_callback_registration true (named name s))))
        with (scan_resp_data (named name s)).
      change (scan_resp_data_len (set_initialized true
                (set_hci_event_callback_registration true (named name s))))
        with (scan_resp_data_len (named name s)).
      rewrite Hd, Hl. exact Hrec.
    - rewrite Hd, Hl. exact Hrec. }
  unfold packet_handler. unfold_M. simpl. rewrite Hscan. reflexivity.
Qed.

Lemma init_then_advertise_witness :
  let T := mk_transport (fun _ => true) (fun _ _ _ => 0) 0 in
  let s1 := final (run (rokot_ble_midi_init T [82; 111; 107; 111; 84]) ble_midi_state) in
  calls (run (packet_handler HCI_EVENT_PACKET 0
                (BTSTACK_EVENT_STATE HCI_STATE_WORKING) 3) s1)
  = [gap_advertisements_set_params 0x0020 0x0040 0 0 [0; 0; 0; 0; 0; 0] 0x07 0x00;
     gap_advertisements_set_data adv_data;
     gap_scan_response_set_data [6; 0x09; 82; 111; 107; 111; 84];
     gap_advertisements_enable 1].
Proof.
  intros T s1.
  pose proof (init_then_advertise T [82; 111; 107; 111; 84] 0 3 ble_midi_state
                eq_refl eq_refl) as H.
  fold s1 in H. rewrite H. reflexivity.
Defined.

Lemma deinit_eq (s : statics) :
  run rokot_ble_midi_deinit s
  = if initialized s
    then (tt,
          set_battery_notifications_enabled false
            (set_notifications_enabled false
               (set_con_handle HCI_CON_HANDLE_INVALID (set_initialized false s))),
          [hci_power_control HCI_POWER_OFF; cyw43_arch_deinit])
    else (tt, s, []).
Proof.
  unfold rokot_ble_midi_deinit. unfold_M.
  destruct (initialized s); reflexivity.
Qed.

(** X5. [rokot_ble_midi_deinit] does nothing on a library that is not
    initialised. On an initialised one it powers the controller off and
    stops the driver, forgets the connection and both notification gates,
    so that the state reads DISCONNECTED and every send returns -1, and
    keeps the rest, the recorded connection interval included; a following
    [rokot_ble_midi_init] is accepted again. *)
Theorem deinit_resets (T : transport) (midi_val : Z) (name : list Z) (s : statics) :
  let r := run rokot_ble_midi_deinit s in
  (initialized s = false -> r = (tt, s, [])) /\
  (initialized s = true ->
   calls r = [hci_power_control HCI_POWER_OFF; cyw43_arch_deinit] /\
   final r = mk_statics HCI_CON_HANDLE_INVALID false false
               (connection_interval s) (rx_callback s)
               (hci_event_callback_registration s) (device_name s)
               (manufacturer s) (firmware_version s) (battery_level s)
               false (scan_resp_data s) (scan_resp_data_len s) /\
   rokot_ble_midi_get_state (final r) = ROKOT_BLE_MIDI_DISCONNECTED /\
   rokot_ble_midi_is_connected (final r) = false /\
   (forall q, run (perform T midi_val q) (final r) = (-1, final r, [])) /\
   (cyw43_arch_init_result T = 0 ->
    retval (run (rokot_ble_midi_init T name) (final r)) = 0)).
Proof.
  intros r. subst r. rewrite deinit_eq. split; intros Hi; rewrite Hi.
  - reflexivity.
  - unfold final, calls. cbn [fst snd].
    split; [reflexivity|]. split; [reflexivity|].
    split; [reflexivity|]. split; [reflexivity|].
    split.
    + intros q.
      destruct (perform_eq T midi_val q
                  (set_battery_notifications_enabled false
                     (set_notifications_enabled false
                        (set_con_handle HCI_CON_HANDLE_INVALID
                           (set_initialized false s))))) as [packet ->].
      destruct (raw_length_invalid q); reflexivity.
    + intros Hok. rewrite init_not_initialized by reflexivity.
      rewrite Hok. reflexivity.
Qed.

Lemma deinit_resets_witness :
  let T := mk_transport (fun _ => true) (fun _ _ _ => 0) 0 in
  let ready :=
    set_connection_interval 6
      (set_initialized true
         (set_con_handle 64 (set_notifications_enabled true ble_midi_state))) in
  let r := run rokot_ble_midi_deinit ready in
  run rokot_ble_midi_deinit ble_midi_state = (tt, ble_midi_state, []) /\
  rokot_ble_midi_get_state ready = ROKOT_BLE_MIDI_READY /\
  rokot_ble_midi_get_state (final r) = ROKOT_BLE_MIDI_DISCONNECTED /\
  connection_interval (final r) = 6 /\
  run (perform T 13 (note_on 0 60 100)) (final r) = (-1, final r, []).
Proof.
  intros T ready r.
  destruct (deinit_resets T 13 [] ble_midi_state) as [Hoff _].
  destruct (deinit_resets T 13 [] ready) as [_ Hon].
  destruct (Hon eq_refl) as (_ & Hfinal & Hst & _ & Hsend & _).
  split; [exact (Hoff eq_refl)|].
  split; [reflexivity|]. split; [exact Hst|].
  split; [fold r in Hfinal; rewrite Hfinal; reflexivity|].
  apply Hsend.
Defined.

(** ** Bits *)

(** A value below [2^n] and a value shifted left by [n] share no bit, so
    their bitwise or is their sum. *)
Lemma lor_shiftl_add (a b n : Z) :
  0 <= n -> 0 <= a < 2 ^ n -> Z.lor a (Z.shiftl b n) = a + b * 2 ^ n.
Proof.
  intros Hn Ha.
  assert (Hdisj : Z.land a (Z.shiftl b n) = 0).
  { apply Z.bits_inj'. intros k Hk.
    rewrite Z.land_spec, Z.bits_0.
    destruct (Z.lt_ge_cases k n) as [Hlt|Hge].
    - rewrite (Z.shiftl_spec_low b n k Hlt). apply andb_false_r.
    - rewrite <- (Z.mod_small a (2 ^ n) Ha).
      rewrite Z.mod_pow2_bits_high by lia. reflexivity. }
  rewrite <- Z.lxor_lor by exact Hdisj.
  rewrite <- Z.add_nocarry_lxor by exact Hdisj.
  rewrite Z.shiftl_mul_pow2 by exact Hn. reflexivity.
Qed.

Lemma little_endian_read_16_bytes (b0 b1 : Z) (rest : list Z) :
  0 <= b0 < 256 -> 0 <= b1 < 256 ->
  little_endian_read_16 (b0 :: b1 :: rest) 0 = b0 + 256 * b1.
Proof.
  intros H0 H1. unfold little_endian_read_16, byte_at. simpl.
  rewrite (lor_shiftl_add b0 b1 8) by lia.
  rewrite u16_small by lia. lia.
Qed.

(** ** What the HCI event handler leaves alone *)

Lemma packet_handler_not_event (packet_type channel : Z) (packet : hci_event)
    (size : Z) (s : statics) :
  packet_type <> HCI_EVENT_PACKET ->
  run (packet_handler packet_type channel packet size) s = (tt, s, []).
Proof.
  intros Hne. unfold packet_handler.
  rewrite (proj2 (Z.eqb_neq _ _) Hne). reflexivity.
Qed.

(** X6. Whatever packet it is given, [packet_handler] calls only the GAP
    layer: it never sends a notification and never invokes the receive
    callback. It never enables a notification gate, and it leaves the
    callback, the device profile, the battery level, the initialised flag
    and the scan response as they were. A packet that is not an HCI event
    changes nothing at all. *)
Theorem packet_handler_frame
    (packet_type channel : Z) (packet : hci_event) (size : Z) (s : statics) :
  let r := run (packet_handler packet_type channel packet size) s in
  forallb is_gap_call (calls r) = true /\
  (notifications_enabled (final r) = true -> notifications_enabled s = true) /\
  (battery_notifications_enabled (final r) = true ->
   battery_notifications_enabled s = true) /\
  (rx_callback (final r) = rx_callback s /\
   hci_event_callback_registration (final r) = hci_event_callback_registration s /\
   device_name (final r) = device_name s /\
   manufacturer (final r) = manufacturer s /\
   firmware_version (final r) = firmware_version s /\
   battery_level (final r) = battery_level s /\
   initialized (final r) = initialized s /\
   scan_resp_data (final r) = scan_resp_data s /\
   scan_resp_data_len (final r) = scan_resp_data_len s) /\
  (packet_type <> HCI_EVENT_PACKET -> r = (tt, s, [])).
Proof.
  intros r. subst r.
  split; [|split; [|split; [|split]]];
    try (intros Hne; apply packet_handler_not_event; exact Hne);
    unfold packet_handler;
    (destruct (negb (packet_type =? HCI_EVENT_PACKET));
     [try reflexivity; try (repeat split; fail); auto|]);
    (destruct packet as [state| h interval | interval | | | ];
     [destruct (state =? HCI_STATE_WORKING)| | | | |]);
    destruct s; unfold_M; simpl; auto; try discriminate; repeat split.
Qed.

Lemma packet_handler_frame_witness :
  let s := set_con_handle 64 (set_notifications_enabled true ble_midi_state) in
  let r := run (packet_handler HCI_EVENT_PACKET 0
                  (HCI_SUBEVENT_LE_CONNECTION_UPDATE_COMPLETE 12) 10) s in
  notifications_enabled (final r) = true /\
  notifications_enabled s = true /\
  run (packet_handler 0x02 0 HCI_EVENT_DISCONNECTION_COMPLETE 6) s = (tt, s, []).
Proof.
  intros s r.
  destruct (packet_handler_frame HCI_EVENT_PACKET 0
              (HCI_SUBEVENT_LE_CONNECTION_UPDATE_COMPLETE 12) 10 s)
    as (_ & Hgate & _).
  destruct (packet_handler_frame 0x02 0 HCI_EVENT_DISCONNECTION_COMPLETE 6 s)
    as (_ & _ & _ & _ & Hother).
  split; [reflexivity|]. split; [exact (Hgate eq_refl)|].
  apply Hother. discriminate.
Defined.

(** ** Client characteristic configuration writes *)

(** X7. A two-byte write to a CCCD enables the gate of its characteristic
    exactly when the bytes are 01 00: every other value, the indication
    bit 02 00 and the combined 03 00 included, disables it. The write
    records the writing connection and leaves the gate of the other
    characteristic alone. *)
Theorem cccd_write_value
    (bat_cccd midi_val midi_cccd con mode off b0 b1 size : Z) (s : statics) :
  midi_cccd <> bat_cccd ->
  0 <= b0 < 256 ->
  0 <= b1 < 256 ->
  let midi := final (run (att_write_callback bat_cccd midi_val midi_cccd
                            con midi_cccd mode off [b0; b1] size) s) in
  let bat := final (run (att_write_callback bat_cccd midi_val midi_cccd
                           con bat_cccd mode off [b0; b1] size) s) in
  (notifications_enabled midi = true <-> b0 = 1 /\ b1 = 0) /\
  battery_notifications_enabled midi = battery_notifications_enabled s /\
  con_handle midi = con /\
  (battery_notifications_enabled bat = true <-> b0 = 1 /\ b1 = 0) /\
  notifications_enabled bat = notifications_enabled s /\
  con_handle bat = con.
Proof.
  intros Hne H0 H1 midi bat. subst midi bat.
  rewrite att_write_callback_midi_cccd by exact Hne.
  rewrite att_write_callback_battery_cccd.
  rewrite little_endian_read_16_bytes by assumption.
  unfold final. cbn [fst snd]. simpl.
  unfold GATT_CLIENT_CHARACTERISTICS_CONFIGURATION_NOTIFICATION.
  rewrite Z.eqb_eq.
  repeat split; try lia.
Qed.

Lemma cccd_write_value_witness :
  let write := att_write_callback 11 13 14 64 14 0 0 in
  let s := set_con_handle 64 (set_notifications_enabled true ble_midi_state) in
  notifications_enabled (final (run (write [0x03; 0x00] 2) s)) <> true /\
  notifications_enabled (final (run (write [0x01; 0x00] 2) s)) = true.
Proof.
  intros write s.
  destruct (cccd_write_value 11 13 14 64 0 0 0x03 0x00 2 s) as (H3 & _);
    [discriminate | lia | lia |].
  destruct (cccd_write_value 11 13 14 64 0 0 0x01 0x00 2 s) as (H1 & _);
    [discriminate | lia | lia |].
  split.
  - intros H. apply H3 in H. lia.
  - apply H1. split; reflexivity.
Defined.

(** ** What the write callback never does *)

(** X8. Whatever handle, connection, mode, offset and buffer it is given,
    [att_write_callback] reports success, never sends a notification and
    changes at most the connection handle and the two notification gates.
    It makes no call at all, except for a single invocation of the
    registered receive callback, which comes with an unchanged state. *)
Theorem att_write_callback_frame
    (bat_cccd midi_val midi_cccd con att_handle mode off : Z) (buffer : list Z)
    (size : Z) (s : statics) :
  let r := run (att_write_callback bat_cccd midi_val midi_cccd
                  con att_handle mode off buffer size) s in
  retval r = 0 /\
  (calls r = [] \/
   exists f status data1 data2,
     rx_callback s = Some f /\
     calls r = [rx_callback_call f status data1 data2] /\
     final r = s) /\
  (connection_interval (final r) = connection_interval s /\
   rx_callback (final r) = rx_callback s /\
   hci_event_callback_registration (final r) = hci_event_callback_registration s /\
   device_name (final r) = device_name s /\
   manufacturer (final r) = manufacturer s /\
   firmware_version (final r) = firmware_version s /\
   battery_level (final r) = battery_level s /\
   initialized (final r) = initialized s /\
   scan_resp_data (final r) = scan_resp_data s /\
   scan_resp_data_len (final r) = scan_resp_data_len s).
Proof.
  intros r. subst r. unfold att_write_callback.
  destruct (att_handle =? bat_cccd);
    [split; [reflexivity|]; split; [left; reflexivity | destruct s; repeat split]|].
  destruct (att_handle =? midi_cccd);
    [split; [reflexivity|]; split; [left; reflexivity | destruct s; repeat split]|].
  destruct (att_handle =? midi_val);
    [|split; [reflexivity|]; split; [left; reflexivity | repeat split]].
  unfold_M. simpl.
  destruct (2 <? size), (rx_callback s) as [f|] eqn:Hf;
    try (split; [reflexivity|]; split; [left; reflexivity | repeat split; assumption]).
  destruct (5 <=? size); [|destruct (4 <=? size)]; simpl;
    (split; [reflexivity|]);
    (split; [|repeat split; assumption]).
  - right. eexists _, _, _, _. repeat split.
  - right. eexists _, _, _, _. repeat split.
  - left. reflexivity.
Qed.

(** ** Registering the receive callback *)

(** X9. The callback that receives an inbound message is the one given to
    the latest [rokot_ble_midi_set_callback]: after registering [callback],
    a write of four bytes or more to the MIDI value handle invokes it, once,
    with the bytes behind the two-byte prefix (a missing fifth byte reads as
    0); after registering [NULL] the same write invokes nothing.
    Registering changes nothing but the callback. *)
Theorem set_callback_then_write
    (bat_cccd midi_val midi_cccd con mode off : Z) (b : list Z)
    (callback : rokot_ble_midi_callback_t) (s : statics) :
  midi_val <> bat_cccd ->
  midi_val <> midi_cccd ->
  (4 <= length b)%nat ->
  let s1 := final (run (rokot_ble_midi_set_callback callback) s) in
  let r := run (att_write_callback bat_cccd midi_val midi_cccd
                  con midi_val mode off b (Z.of_nat (length b))) s1 in
  s1 = set_rx_callback callback s /\
  calls (run (rokot_ble_midi_set_callback callback) s) = [] /\
  calls r
  = match callback with
    | Some f =>
        [rx_callback_call f (byte_at b 2) (byte_at b 3)
           (if 5 <=? Z.of_nat (length b) then byte_at b 4 else 0)]
    | None => []
    end.
Proof.
  intros Hb Hc Hlen s1 r. subst r s1.
  split; [reflexivity|]. split; [reflexivity|].
  rewrite att_write_callback_midi_value by assumption.
  unfold calls, final. cbn [fst snd].
  change (rx_callback (run (rokot_ble_midi_set_callback callback) s).1.2)
    with callback.
  rewrite (proj2 (Z.ltb_lt 2 (Z.of_nat (length b)))) by lia.
  destruct callback as [f|]; [|reflexivity].
  destruct (5 <=? Z.of_nat (length b)); [reflexivity|].
  rewrite (proj2 (Z.leb_le 4 (Z.of_nat (length b)))) by lia.
  reflexivity.
Qed.

Lemma set_callback_then_write_witness :
  let write := att_write_callback 11 13 14 64 13 0 0 [0x80; 0x80; 0xC0; 0x05] 4 in
  let s := set_rx_callback (Some 7%nat) ble_midi_state in
  calls (run write (final (run (rokot_ble_midi_set_callback (Some 9%nat)) s)))
  = [rx_callback_call 9 0xC0 0x05 0] /\
  calls (run write (final (run (rokot_ble_midi_set_callback None) s))) = [].
Proof.
  intros write s. split.
  - destruct (set_callback_then_write 11 13 14 64 0 0 [0x80; 0x80; 0xC0; 0x05]
                (Some 9%nat) s) as (_ & _ & H); [discriminate | discriminate | simpl; lia |].
    exact H.
  - destruct (set_callback_then_write 11 13 14 64 0 0 [0x80; 0x80; 0xC0; 0x05]
                None s) as (_ & _ & H); [discriminate | discriminate | simpl; lia |].
    exact H.
Defined.

(** ** The send operations, argument by argument *)

Lemma perform_run (T : transport) (midi_val : Z) (q : send_request) (s : statics) :
  run (perform T midi_val q) s
  = if raw_length_invalid q then (-1, s, [])
    else run (send_midi_internal T midi_val (request_array q) (request_len q)) s.
Proof.
  destruct q; try reflexivity.
  simpl. unfold rokot_ble_midi_send_raw.
  destruct ((len =? 0) || (3 <? len)); reflexivity.
Qed.

(** The outcome of a send operation with the packet spelled out. *)
Lemma perform_wire (T : transport) (midi_val : Z) (q : send_request) (s : statics) :
  run (perform T midi_val q) s
  = if raw_length_invalid q then (-1, s, [])
    else if rokot_ble_midi_is_ready s then
      if att_server_can_send_packet_now T (con_handle s) then
        (if att_server_notify_result T (con_handle s) midi_val (wire_packet q) =? 0
         then 0 else -3,
         s, [att_server_notify (con_handle s) midi_val (wire_packet q)])
      else (-2, s, [])
    else (-1, s, []).
Proof.
  rewrite perform_run. destruct (raw_length_invalid q); [reflexivity|].
  apply send_midi_internal_eq.
Qed.

Lemma request_len_bounds (q : send_request) :
  raw_length_invalid q = false ->
  raw_in_bounds q ->
  1 <= request_len q <= 3 /\
  request_len q <= Z.of_nat (length (request_array q)) /\
  request_midi q = take (Z.to_nat (request_len q)) (request_array q).
Proof.
  destruct q; simpl; intros Hq Hb; repeat split; lia.
Qed.

Lemma wire_packet_eq (q : send_request) :
  raw_length_invalid q = false ->
  raw_in_bounds q ->
  wire_packet q = 0x80 :: 0x80 :: request_midi q.
Proof.
  intros Hq Hb.
  destruct (request_len_bounds q Hq Hb) as (Hlen & Harr & ->).
  unfold wire_packet. cbv zeta.
  rewrite <- (Z2Nat.id (request_len q)) at 1 2 by lia.
  apply encode_ble_midi_packet_take; [reflexivity | lia | lia].
Qed.

(** X10. In a READY state with a transport that can send, every send
    operation makes exactly one notification, on the MIDI value handle of
    the current connection, whose value is 80 80 followed by the MIDI
    message: the bytes the typed sender builds, or the first [len] bytes of
    the raw data. It returns 0 if the transport accepts the notification
    and -3 if not, and leaves the state alone. *)
Theorem ready_send_notifies
    (T : transport) (midi_val : Z) (q : send_request) (s : statics) :
  rokot_ble_midi_is_ready s = true ->
  att_server_can_send_packet_now T (con_handle s) = true ->
  raw_length_invalid q = false ->
  raw_in_bounds q ->
  let value := 0x80 :: 0x80 :: request_midi q in
  run (perform T midi_val q) s
  = (if att_server_notify_result T (con_handle s) midi_val value =? 0 then 0 else -3,
     s,
     [att_server_notify (con_handle s) midi_val value]) /\
  (3 <= length value <= 5)%nat.
Proof.
  intros Hr Hc Hq Hb value. subst value.
  rewrite perform_wire, Hq, Hr, Hc, wire_packet_eq by assumption.
  split; [reflexivity|].
  destruct (request_len_bounds q Hq Hb) as (Hlen & Harr & ->).
  simpl length. rewrite length_take. lia.
Qed.

Lemma ready_send_notifies_witness :
  let T := mk_transport (fun _ => true) (fun _ _ _ => 0) 0 in
  let s := set_con_handle 64 (set_notifications_enabled true ble_midi_state) in
  run (rokot_ble_midi_note_on T 13 1 60 100) s
  = (0, s, [att_server_notify 64 13 [0x80; 0x80; 0x91; 60; 100]]) /\
  run (rokot_ble_midi_send_raw T 13 [0xF8; 0x90; 0x3C; 0x64] 1) s
  = (0, s, [att_server_notify 64 13 [0x80; 0x80; 0xF8]]).
Proof.
  intros T s. split.
  - destruct (ready_send_notifies T 13 (note_on 1 60 100) s eq_refl eq_refl eq_refl I)
      as [H _].
    exact H.
  - destruct (ready_send_notifies T 13 (send_raw [0xF8; 0x90; 0x3C; 0x64] 1) s
                eq_refl eq_refl eq_refl) as [H _]; [simpl; lia|].
    exact H.
Defined.

(** ** Masking of the arguments *)

Lemma land_0x0F (x : Z) : Z.land x 0x0F = x mod 16.
Proof. change 0x0F with (Z.ones 4). rewrite Z.land_ones by lia. reflexivity. Qed.

(** The status byte of a channel message: the type in the high nibble, the
    channel modulo 16 in the low one. *)
Lemma status_byte (type channel : Z) :
  0 <= type < 16 ->
  u8 (Z.lor (16 * type) (Z.land channel 0x0F)) = 16 * type + channel mod 16.
Proof.
  intros Ht. rewrite land_0x0F.
  assert (Hc : 0 <= channel mod 16 < 16) by (apply Z.mod_pos_bound; lia).
  rewrite Z.lor_comm.
  replace (16 * type) with (Z.shiftl type 4)
    by (rewrite Z.shiftl_mul_pow2 by lia; change (2 ^ 4) with 16; lia).
  rewrite lor_shiftl_add by (change (2 ^ 4) with 16; lia).
  change (2 ^ 4) with 16.
  rewrite u8_small by lia.
  rewrite Z.shiftl_mul_pow2 by lia. change (2 ^ 4) with 16. lia.
Qed.

(** X11. The typed senders never reject an argument: the channel is
    reduced modulo 16 into the low nibble of the status byte, below the
    message type, and every data argument is reduced modulo 128; the pitch
    bend value is biased by 8192, reduced modulo 65536 and split into its
    low and next seven bits. Every message therefore starts with a status
    byte from 0x80 to 0xEF and continues with data bytes below 0x80. *)
Theorem typed_senders_mask (channel a b : Z) :
  note_on_midi channel a b = [0x90 + channel mod 16; a mod 128; b mod 128] /\
  note_off_midi channel a = [0x80 + channel mod 16; a mod 128; 0] /\
  control_change_midi channel a b = [0xB0 + channel mod 16; a mod 128; b mod 128] /\
  program_change_midi channel a = [0xC0 + channel mod 16; a mod 128] /\
  pitch_bend_midi channel a
  = [0xE0 + channel mod 16;
     ((a + 8192) mod 65536) mod 128;
     ((a + 8192) mod 65536 / 128) mod 128] /\
  channel_pressure_midi channel a = [0xD0 + channel mod 16; a mod 128] /\
  0 <= channel mod 16 < 16 /\ 0 <= a mod 128 < 128 /\ 0 <= b mod 128 < 128.
Proof.
  unfold note_on_midi, note_off_midi, control_change_midi, program_change_midi,
    pitch_bend_midi, channel_pressure_midi.
  unfold MIDI_NOTE_ON, MIDI_NOTE_OFF, MIDI_CONTROL_CHANGE, MIDI_PROGRAM_CHANGE,
    MIDI_PITCH_BEND, MIDI_CHANNEL_PRESSURE.
  rewrite !land_0x7F, shiftr_7.
  pose proof (status_byte 8 channel ltac:(lia)) as H8.
  pose proof (status_byte 9 channel ltac:(lia)) as H9.
  pose proof (status_byte 11 channel ltac:(lia)) as H11.
  pose proof (status_byte 12 channel ltac:(lia)) as H12.
  pose proof (status_byte 13 channel ltac:(lia)) as H13.
  pose proof (status_byte 14 channel ltac:(lia)) as H14.
  change (16 * 8) with 0x80 in H8. change (16 * 9) with 0x90 in H9.
  change (16 * 11) with 0xB0 in H11. change (16 * 12) with 0xC0 in H12.
  change (16 * 13) with 0xD0 in H13. change (16 * 14) with 0xE0 in H14.
  rewrite H8, H9, H11, H12, H13, H14.
  unfold u16. set (bend := (a + 8192) mod 65536).
  pose proof (Z.mod_pos_bound bend 128 ltac:(lia)) as Hlsb.
  pose proof (Z.mod_pos_bound (bend / 128) 128 ltac:(lia)) as Hmsb.
  rewrite (u8_small (bend mod 128)) by lia.
  rewrite (u8_small ((bend / 128) mod 128)) by lia.
  repeat split; try (apply Z.mod_pos_bound; lia).
Qed.

(** ** Notifications are gated *)

Lemma packet_handler_gap_calls
    (packet_type channel : Z) (packet : hci_event) (size : Z) (s : statics) :
  forallb is_gap_call (calls (run (packet_handler packet_type channel packet size) s))
  = true.
Proof.
  unfold packet_handler.
  destruct (negb (packet_type =? HCI_EVENT_PACKET)); [reflexivity|].
  destruct packet as [state| h interval | interval | | | ]; try reflexivity.
  destruct (state =? HCI_STATE_WORKING); reflexivity.
Qed.

Lemma att_write_callback_no_notify
    (bat_cccd midi_val midi_cccd con att_handle mode off : Z) (buffer : list Z)
    (size : Z) (s : statics) (c h : Z) (v : list Z) :
  ~ In (att_server_notify c h v)
      (calls (run (att_write_callback bat_cccd midi_val midi_cccd
                     con att_handle mode off buffer size) s)).
Proof.
  unfold att_write_callback.
  destruct (att_handle =? bat_cccd); [intros []|].
  destruct (att_handle =? midi_cccd); [intros []|].
  destruct (att_handle =? midi_val); [|intros []].
  unfold_M. simpl.
  destruct (2 <? size), (rx_callback s) as [f|]; try (intros []).
  destruct (5 <=? size); [|destruct (4 <=? size)]; simpl;
    intros H; repeat (destruct H as [H|H]; [discriminate|]); exact H.
Qed.

Lemma init_no_notify (T : transport) (name : list Z) (s : statics) (c h : Z)
    (v : list Z) :
  ~ In (att_server_notify c h v) (calls (run (rokot_ble_midi_init T name) s)).
Proof.
  destruct (initialized s) eqn:Hi.
  - rewrite init_already_initialized by exact Hi. intros [].
  - rewrite init_not_initialized by exact Hi.
    destruct (cyw43_arch_init_result T =? 0); simpl;
      intros H; repeat (destruct H as [H|H]; [discriminate|]); exact H.
Qed.

Lemma ignore_calls {A : Type} (m : M A) (s : statics) :
  calls (run (ignore m) s) = calls (run m s).
Proof.
  unfold_M. destruct (m s) as [[x s'] t]. simpl. apply app_nil_r.
Qed.

(** X12. Whatever the input and whatever the state, a notification the
    library makes is addressed to the recorded connection, which is then
    not [HCI_CON_HANDLE_INVALID], and is made only after the transport said
    it can send; it goes either to the MIDI value handle with the MIDI gate
    enabled, or to the Battery Level value handle with the Battery gate
    enabled and a single byte of at most 100. *)
Theorem notifications_are_gated
    (T : transport) (bat_val bat_cccd midi_val midi_cccd : Z) (i : input)
    (s : statics) (c h : Z) (v : list Z) :
  In (att_server_notify c h v)
    (calls (run (dispatch T bat_val bat_cccd midi_val midi_cccd i) s)) ->
  c = con_handle s /\
  c <> HCI_CON_HANDLE_INVALID /\
  att_server_can_send_packet_now T c = true /\
  ((h = midi_val /\ notifications_enabled s = true) \/
   (h = bat_val /\ battery_notifications_enabled s = true /\
    exists level, v = [level] /\ level <= 100)).
Proof.
  destruct i as [packet_type channel packet size
                | con att_handle mode off buffer size
                | name | | name | version | level | q | callback];
    unfold dispatch; rewrite ?ignore_calls.
  - intros Hin.
    pose proof (packet_handler_gap_calls packet_type channel packet size s) as Hgap.
    rewrite forallb_forall in Hgap. apply Hgap in Hin. discriminate.
  - intros Hin. apply att_write_callback_no_notify in Hin. contradiction.
  - intros Hin. apply init_no_notify in Hin. contradiction.
  - rewrite deinit_eq. destruct (initialized s); simpl;
      intros H; repeat (destruct H as [H|H]; [discriminate|]); exact (False_ind _ H).
  - intros [].
  - intros [].
  - rewrite set_battery_level_eq. unfold calls. cbn [snd].
    destruct (battery_notifications_enabled s) eqn:Hb; [|intros []].
    destruct (Z.eqb_spec (con_handle s) HCI_CON_HANDLE_INVALID) as [He|Hne];
      [intros []|].
    destruct (att_server_can_send_packet_now T (con_handle s)) eqn:Hc; [|intros []].
    simpl. intros [Heq|[]]. injection Heq as <- <- <-.
    split; [reflexivity|]. split; [exact Hne|]. split; [exact Hc|].
    right. split; [reflexivity|]. split; [reflexivity|].
    exists (Z.min level 100). split; [reflexivity | lia].
  - rewrite perform_wire. unfold calls.
    destruct (raw_length_invalid q); [intros []|].
    destruct (rokot_ble_midi_is_ready s) eqn:Hr; [|intros []].
    apply is_ready_true in Hr. destruct Hr as [Hn Hcon].
    destruct (att_server_can_send_packet_now T (con_handle s)) eqn:Hc; [|intros []].
    cbn [snd]. intros [Heq|[]]. injection Heq as <- <- <-.
    split; [reflexivity|]. split; [exact Hcon|]. split; [exact Hc|].
    left. split; [reflexivity | exact Hn].
  - intros [].
Qed.

Lemma notifications_are_gated_witness :
  let T := mk_transport (fun _ => true) (fun _ _ _ => 0) 0 in
  let s := set_con_handle 64 (set_battery_notifications_enabled true ble_midi_state) in
  In (att_server_notify 64 12 [100])
    (calls (run (dispatch T 12 11 13 14 (in_set_battery_level 150)) s)) /\
  64 = con_handle s /\
  64 <> HCI_CON_HANDLE_INVALID /\
  att_server_can_send_packet_now T 64 = true /\
  ((12 = 13 /\ notifications_enabled s = true) \/
   (12 = 12 /\ battery_notifications_enabled s = true /\
    exists level, [100] = [level] /\ level <= 100)).
Proof.
  intros T s.
  assert (Hin : In (att_server_notify 64 12 [100])
                  (calls (run (dispatch T 12 11 13 14 (in_set_battery_level 150)) s)))
    by (left; reflexivity).
  split; [exact Hin|].
  exact (notifications_are_gated T 12 11 13 14 (in_set_battery_level 150) s
           64 12 [100] Hin).
Defined.

(** ** More invariants of the reachable states *)

Lemma dispatch_battery_level
    (T : transport) (bat_val bat_cccd midi_val midi_cccd : Z) (i : input)
    (s : statics) :
  let s' := final (run (dispatch T bat_val bat_cccd midi_val midi_cccd i) s) in
  battery_level s' = battery_level s \/
  exists level, i = in_set_battery_level level /\ battery_level s' = Z.min level 100.
Proof.
  destruct i as [packet_type channel packet size
                | con att_handle mode off buffer size
                | name | | name | version | level | q | callback];
    cbv zeta; unfold dispatch; rewrite ?ignore_final.
  - left. unfold packet_handler.
    destruct (negb (packet_type =? HCI_EVENT_PACKET)); [reflexivity|].
    destruct packet as [state| h interval | interval | | | ]; try reflexivity.
    destruct (state =? HCI_STATE_WORKING); reflexivity.
  - left. unfold att_write_callback.
    destruct (att_handle =? bat_cccd); [reflexivity|].
    destruct (att_handle =? midi_cccd); [reflexivity|].
    destruct (att_handle =? midi_val); [|reflexivity].
    unfold_M. simpl.
    destruct (2 <? size), (rx_callback s); try reflexivity.
    destruct (5 <=? size); [|destruct (4 <=? size)]; reflexivity.
  - left. destruct (initialized s) eqn:Hi.
    + rewrite init_already_initialized by exact Hi. reflexivity.
    + rewrite init_not_initialized by exact Hi.
      destruct (named_fields name s)
        as (_ & _ & _ & _ & _ & _ & _ & _ & _ & _ & _ & Hb & _).
      destruct (cyw43_arch_init_result T =? 0); exact Hb.
  - left. rewrite deinit_eq. destruct (initialized s); reflexivity.
  - left. reflexivity.
  - left. reflexivity.
  - right. exists level. split; [reflexivity|].
    rewrite set_battery_level_eq. reflexivity.
  - left. rewrite perform_wire.
    destruct (raw_length_invalid q); [reflexivity|].
    destruct (rokot_ble_midi_is_ready s); [|reflexivity].
    destruct (att_server_can_send_packet_now T (con_handle s)); reflexivity.
  - left. reflexivity.
Qed.

(** X13. In every reachable state the stored battery level is at most 100,
    and so is what [rokot_ble_midi_get_battery_level] returns. *)
Theorem reachable_battery_level
    (T : transport) (bat_val bat_cccd midi_val midi_cccd : Z) (s : statics) :
  reachable T bat_val bat_cccd midi_val midi_cccd s ->
  rokot_ble_midi_get_battery_level s <= 100.
Proof.
  unfold rokot_ble_midi_get_battery_level.
  induction 1 as [|s i _ IH Hvalid].
  - simpl. lia.
  - destruct (dispatch_battery_level T bat_val bat_cccd midi_val midi_cccd i s)
      as [Heq | (level & _ & Heq)]; rewrite Heq; lia.
Qed.

Lemma reachable_battery_level_witness :
  let T := mk_transport (fun _ => true) (fun _ _ _ => 0) 0 in
  let s := final (run (dispatch T 12 11 13 14 (in_set_battery_level 250))
                    ble_midi_state) in
  rokot_ble_midi_get_battery_level s = 100 /\
  rokot_ble_midi_get_battery_level s <= 100.
Proof.
  intros T s. split; [reflexivity|].
  apply (reachable_battery_level T 12 11 13 14 s).
  refine (reachable_step T 12 11 13 14 ble_midi_state (in_set_battery_level 250) _ _).
  - apply reachable_initial.
  - exact I.
Defined.

(** X14. [rokot_ble_midi_is_ready] implies [rokot_ble_midi_is_connected]
    in every state; and in every reachable state
    [rokot_ble_midi_is_connected] is true exactly when
    [rokot_ble_midi_get_state] is CONNECTED or READY. *)
Theorem reachable_is_connected
    (T : transport) (bat_val bat_cccd midi_val midi_cccd : Z) (s : statics) :
  (rokot_ble_midi_is_ready s = true -> rokot_ble_midi_is_connected s = true) /\
  (reachable T bat_val bat_cccd midi_val midi_cccd s ->
   (rokot_ble_midi_is_connected s = true <->
    rokot_ble_midi_get_state s = ROKOT_BLE_MIDI_CONNECTED \/
    rokot_ble_midi_get_state s = ROKOT_BLE_MIDI_READY)).
Proof.
  split.
  - unfold rokot_ble_midi_is_ready, rokot_ble_midi_is_connected.
    intros H. apply andb_true_iff in H. apply H.
  - intros Hreach.
    pose proof (reachable_invariant _ _ _ _ _ _ Hreach) as Hinv.
    unfold rokot_ble_midi_is_connected.
    rewrite negb_true_iff, Z.eqb_neq, get_state_connected, get_state_ready.
    split.
    + intros Hc. destruct (notifications_enabled s); auto.
    + intros [[_ Hc] | Hn]; [exact Hc|]. apply Hinv. left. exact Hn.
Qed.

Lemma reachable_is_connected_witness :
  let T := mk_transport (fun _ => true) (fun _ _ _ => 0) 0 in
  let s := final (run (dispatch T 12 11 13 14
                         (in_packet HCI_EVENT_PACKET 0
                            (HCI_SUBEVENT_LE_CONNECTION_COMPLETE 64 24) 19))
                    ble_midi_state) in
  rokot_ble_midi_is_connected s = true <->
  rokot_ble_midi_get_state s = ROKOT_BLE_MIDI_CONNECTED \/
  rokot_ble_midi_get_state s = ROKOT_BLE_MIDI_READY.
Proof.
  intros T s.
  apply (reachable_is_connected T 12 11 13 14 s).
  refine (reachable_step T 12 11 13 14 ble_midi_state
            (in_packet HCI_EVENT_PACKET 0
               (HCI_SUBEVENT_LE_CONNECTION_COMPLETE 64 24) 19) _ _).
  - apply reachable_initial.
  - simpl. discriminate.
Defined.

(** ** The two gates are independent *)

(** X15. The Battery notification does not look at the MIDI gate, and the
    MIDI senders do not look at the Battery gate: flipping the other gate
    changes neither the calls made nor the value returned. So the battery
    level is notified while MIDI notifications are off, and MIDI is sent
    while battery notifications are off. *)
Theorem gates_independent
    (T : transport) (bat_val midi_val level : Z) (q : send_request) (flag : bool)
    (s : statics) :
  calls (run (rokot_ble_midi_set_battery_level T bat_val level)
           (set_notifications_enabled flag s))
  = calls (run (rokot_ble_midi_set_battery_level T bat_val level) s) /\
  calls (run (perform T midi_val q) (set_battery_notifications_enabled flag s))
  = calls (run (perform T midi_val q) s) /\
  retval (run (perform T midi_val q) (set_battery_notifications_enabled flag s))
  = retval (run (perform T midi_val q) s).
Proof.
  rewrite !set_battery_level_eq, !perform_wire.
  split; [reflexivity|].
  change (rokot_ble_midi_is_ready (set_battery_notifications_enabled flag s))
    with (rokot_ble_midi_is_ready s).
  change (con_handle (set_battery_notifications_enabled flag s)) with (con_handle s).
  destruct (raw_length_invalid q); [split; reflexivity|].
  destruct (rokot_ble_midi_is_ready s); [|split; reflexivity].
  destruct (att_server_can_send_packet_now T (con_handle s)); split; reflexivity.
Qed.

(** ** The two revisions of the library *)

Ltac unfold_V1 :=
  unfold V1.run, seen, forget, run,
    V1.do_att_server_notify, do_att_server_notify,
    mbind, mret, V1.M_bind, V1.M_ret, M_bind, M_ret,
    V1.get, V1.modify, V1.emit, get, modify, emit in *.

Lemma V1_send_midi_internal (T : transport) (midi_val : Z) (midi : list Z) (len : Z)
    (s : statics) :
  V1.run (V1.send_midi_internal T midi_val midi len) (forget s)
  = seen (run (send_midi_internal T midi_val midi len) s).
Proof.
  unfold V1.send_midi_internal, send_midi_internal. unfold_V1.
  destruct s as [con gate bat_gate interval cb reg dev man fw bat init scan scan_len].
  simpl.
  destruct gate; simpl; [|reflexivity].
  destruct (con =? HCI_CON_HANDLE_INVALID); simpl; [reflexivity|].
  destruct (encode_ble_midi_packet (replicate 32 0) midi len) as [packet packet_len].
  destruct (att_server_can_send_packet_now T con); reflexivity.
Qed.

Lemma V1_perform (T : transport) (midi_val : Z) (q : send_request) (s : statics) :
  V1.run (V1.perform T midi_val q) (forget s)
  = seen (run (perform T midi_val q) s).
Proof.
  destruct q; try apply V1_send_midi_internal.
  simpl. unfold V1.rokot_ble_midi_send_raw, rokot_ble_midi_send_raw.
  destruct ((len =? 0) || (3 <? len)); [reflexivity|].
  apply V1_send_midi_internal.
Qed.

Lemma V1_att_write_callback
    (bat_cccd midi_val midi_cccd con att_handle mode off : Z) (buffer : list Z)
    (size : Z) (s : statics) :
  att_handle <> bat_cccd ->
  V1.run (V1.att_write_callback midi_val midi_cccd con att_handle mode off buffer size)
    (forget s)
  = seen (run (att_write_callback bat_cccd midi_val midi_cccd
                 con att_handle mode off buffer size) s).
Proof.
  intros Hne. unfold V1.att_write_callback, att_write_callback.
  rewrite (proj2 (Z.eqb_neq _ _) Hne).
  destruct (att_handle =? midi_cccd); [reflexivity|].
  destruct (att_handle =? midi_val); [|reflexivity].
  unfold_V1.
  destruct s as [con' gate bat_gate interval cb reg dev man fw bat init scan scan_len].
  simpl.
  destruct (2 <? size), cb; try reflexivity.
  destruct (5 <=? size); [|destruct (4 <=? size)]; reflexivity.
Qed.

Lemma V1_packet_handler (packet_type channel : Z) (packet : hci_event) (size : Z)
    (s : statics) :
  V1.run (V1.packet_handler packet_type channel packet size) (forget s)
  = seen (run (packet_handler packet_type channel packet size) s).
Proof.
  unfold V1.packet_handler, packet_handler.
  destruct (negb (packet_type =? HCI_EVENT_PACKET)); [reflexivity|].
  destruct packet as [state| h interval | interval | | | ]; try reflexivity.
  destruct (state =? HCI_STATE_WORKING); reflexivity.
Qed.

Lemma V1_init (T : transport) (name : list Z) (s : statics) :
  V1.run (V1.rokot_ble_midi_init T name) (forget s)
  = seen (run (rokot_ble_midi_init T name) s).
Proof.
  unfold V1.rokot_ble_midi_init, rokot_ble_midi_init,
    V1.build_scan_response, build_scan_response.
  unfold_V1.
  destruct s as [con gate bat_gate interval cb reg dev man fw bat init scan scan_len].
  simpl.
  destruct init; [reflexivity|]. simpl.
  destruct (negb (cyw43_arch_init_result T =? 0)); reflexivity.
Qed.

Lemma V1_deinit (s : statics) :
  V1.run V1.rokot_ble_midi_deinit (forget s) = seen (run rokot_ble_midi_deinit s).
Proof.
  unfold V1.rokot_ble_midi_deinit, rokot_ble_midi_deinit. unfold_V1.
  destruct s as [con gate bat_gate interval cb reg dev man fw bat init scan scan_len].
  simpl.
  destruct init; reflexivity.
Qed.

(** X16. The revision with the Battery and Device Information services
    behaves as the first revision on everything the first revision has:
    seen through the fields they share, every send operation, every ATT
    write that is not for the Battery CCCD, every HCI event,
    [rokot_ble_midi_init], [rokot_ble_midi_deinit] and
    [rokot_ble_midi_set_callback] return the same value, make the same
    calls and leave the same state, and the three status queries agree. *)
Theorem first_revision_simulated
    (T : transport) (bat_cccd midi_val midi_cccd : Z) (s : statics) :
  (forall q,
      V1.run (V1.perform T midi_val q) (forget s)
      = seen (run (perform T midi_val q) s)) /\
  (forall con att_handle mode off buffer size,
      att_handle <> bat_cccd ->
      V1.run (V1.att_write_callback midi_val midi_cccd
                con att_handle mode off buffer size) (forget s)
      = seen (run (att_write_callback bat_cccd midi_val midi_cccd
                     con att_handle mode off buffer size) s)) /\
  (forall packet_type channel packet size,
      V1.run (V1.packet_handler packet_type channel packet size) (forget s)
      = seen (run (packet_handler packet_type channel packet size) s)) /\
  (forall name,
      V1.run (V1.rokot_ble_midi_init T name) (forget s)
      = seen (run (rokot_ble_midi_init T name) s)) /\
  V1.run V1.rokot_ble_midi_deinit (forget s) = seen (run rokot_ble_midi_deinit s) /\
  (forall callback,
      V1.run (V1.rokot_ble_midi_set_callback callback) (forget s)
      = seen (run (rokot_ble_midi_set_callback callback) s)) /\
  V1.rokot_ble_midi_get_state (forget s) = rokot_ble_midi_get_state s /\
  V1.rokot_ble_midi_is_ready (forget s) = rokot_ble_midi_is_ready s /\
  V1.rokot_ble_midi_is_connected (forget s) = rokot_ble_midi_is_connected s.
Proof.
  split; [intros; apply V1_perform|].
  split; [intros; apply V1_att_write_callback; assumption|].
  split; [intros; apply V1_packet_handler|].
  split; [intros; apply V1_init|].
  split; [apply V1_deinit|].
  repeat split.
Qed.

Lemma first_revision_simulated_witness :
  let s := set_battery_notifications_enabled true
             (set_rx_callback (Some 7%nat) ble_midi_state) in
  V1.run (V1.att_write_callback 13 14 64 14 0 0 [0x01; 0x00] 2) (forget s)
  = seen (run (att_write_callback 11 13 14 64 14 0 0 [0x01; 0x00] 2) s) /\
  V1.rokot_ble_midi_get_state
    (V1.run (V1.att_write_callback 13 14 64 14 0 0 [0x01; 0x00] 2) (forget s)).1.2
  = ROKOT_BLE_MIDI_READY.
Proof.
  intros s.
  destruct (first_revision_simulated (mk_transport (fun _ => true) (fun _ _ _ => 0) 0)
              11 13 14 s) as (_ & Hwrite & _).
  split.
  - apply Hwrite. discriminate.
  - reflexivity.
Defined.

(** The Battery CCCD is where the revisions part: the first revision
    ignores the write, the later one records the writing connection. *)
Example battery_cccd_write_differs :
  let s := ble_midi_state in
  V1.con_handle
    (V1.run (V1.att_write_callback 13 14 64 11 0 0 [0x01; 0x00] 2) (forget s)).1.2
  = HCI_CON_HANDLE_INVALID /\
  con_handle (final (run (att_write_callback 11 13 14 64 11 0 0 [0x01; 0x00] 2) s))
  = 64.
Proof. split; reflexivity. Qed.

(** ** Reads of the device information and of the battery level *)

(** X17. What a read serves is what the setters stored: after
    [rokot_ble_midi_set_manufacturer] the Manufacturer Name read serves the
    first 31 bytes of the name, after [rokot_ble_midi_set_firmware_version]
    the Firmware Revision read serves the first 15 bytes of the version,
    and after [rokot_ble_midi_set_battery_level] the Battery Level read
    serves the level clamped to 100, each with the offset and buffer of the
    request. A read of the MIDI value handle, or of any other handle,
    serves nothing and leaves the buffer alone. *)
Theorem reads_serve_what_was_set
    (handle_blob : list Z -> Z -> Z -> list Z -> Z -> Z * list Z)
    (handle_byte : Z -> Z -> list Z -> Z -> Z * list Z)
    (T : transport) (manuf firm bat_val midi_val con offset size level : Z)
    (buffer name version : list Z) (s : statics) :
  firm <> manuf ->
  bat_val <> manuf ->
  bat_val <> firm ->
  let read := att_read_callback handle_blob handle_byte manuf firm bat_val midi_val in
  read con manuf offset buffer size
    (final (run (rokot_ble_midi_set_manufacturer name) s))
  = handle_blob (take 31 name) (Z.of_nat (Nat.min (length name) 31))
      offset buffer size /\
  read con firm offset buffer size
    (final (run (rokot_ble_midi_set_firmware_version version) s))
  = handle_blob (take 15 version) (Z.of_nat (Nat.min (length version) 15))
      offset buffer size /\
  read con bat_val offset buffer size
    (final (run (rokot_ble_midi_set_battery_level T bat_val level) s))
  = handle_byte (Z.min level 100) offset buffer size /\
  (forall att_handle s',
      att_handle <> manuf -> att_handle <> firm -> att_handle <> bat_val ->
      read con att_handle offset buffer size s' = (0, buffer)).
Proof.
  intros Hfm Hbm Hbf read. subst read. unfold att_read_callback.
  rewrite Z.eqb_refl.
  rewrite (proj2 (Z.eqb_neq _ _) Hfm), Z.eqb_refl.
  rewrite (proj2 (Z.eqb_neq _ _) Hbm), (proj2 (Z.eqb_neq _ _) Hbf), Z.eqb_refl.
  rewrite set_battery_level_eq.
  unfold final. cbn [fst snd]. simpl manufacturer. simpl firmware_version.
  simpl battery_level.
  rewrite !length_take.
  rewrite !u16_small by lia.
  rewrite (Nat.min_comm 31 (length name)), (Nat.min_comm 15 (length version)).
  split; [reflexivity|]. split; [reflexivity|]. split; [reflexivity|].
  intros att_handle s' H1 H2 H3.
  rewrite (proj2 (Z.eqb_neq _ _) H1), (proj2 (Z.eqb_neq _ _) H2),
    (proj2 (Z.eqb_neq _ _) H3).
  destruct (att_handle =? midi_val); reflexivity.
Qed.

(** With stand-ins for the two helpers of the stack that answer the size
    and the first byte they are given. *)
Lemma reads_serve_what_was_set_witness :
  let handle_blob :=
    fun (blob : list Z) (blob_size offset : Z) (buffer : list Z) (size : Z) =>
      (blob_size, buffer) in
  let handle_byte :=
    fun (value offset : Z) (buffer : list Z) (size : Z) => (value, buffer) in
  let T := mk_transport (fun _ => true) (fun _ _ _ => 0) 0 in
  let read := att_read_callback handle_blob handle_byte 3 5 12 13 in
  read 64 3 0 [] 0
    (final (run (rokot_ble_midi_set_manufacturer (replicate 40 65)) ble_midi_state))
  = (31, []) /\
  read 64 12 0 [] 0
    (final (run (rokot_ble_midi_set_battery_level T 12 150) ble_midi_state))
  = (100, []) /\
  read 64 13 0 [] 0 ble_midi_state = (0, []).
Proof.
  intros handle_blob handle_byte T read.
  destruct (reads_serve_what_was_set handle_blob handle_byte T 3 5 12 13 64 0 0 150
              [] (replicate 40 65) [] ble_midi_state)
    as (Hm & _ & Hb & Hother); [discriminate | discriminate | discriminate |].
  split; [exact Hm|]. split; [exact Hb|].
  apply Hother; discriminate.
Defined.

(** ** From a sender to the callback of the README *)

Lemma channel_nibbles (type c : Z) :
  0 <= type < 16 -> 0 <= c < 16 ->
  u8 (Z.land (16 * type + c) 0xF0) = 16 * type /\
  u8 (Z.land (16 * type + c) 0x0F) = c.
Proof.
  intros Ht Hc.
  assert (Hcases : c = 0 \/ c = 1 \/ c = 2 \/ c = 3 \/ c = 4 \/ c = 5 \/ c = 6 \/
                   c = 7 \/ c = 8 \/ c = 9 \/ c = 10 \/ c = 11 \/ c = 12 \/
                   c = 13 \/ c = 14 \/ c = 15) by lia.
  assert (Htypes : type = 0 \/ type = 1 \/ type = 2 \/ type = 3 \/ type = 4 \/
                   type = 5 \/ type = 6 \/ type = 7 \/ type = 8 \/ type = 9 \/
                   type = 10 \/ type = 11 \/ type = 12 \/ type = 13 \/
                   type = 14 \/ type = 15) by lia.
  clear Ht Hc.
  repeat (destruct Htypes as [->|Htypes]);
    try subst type;
    repeat (destruct Hcases as [->|Hcases]); try subst c; split; reflexivity.
Qed.

(** X18. A note sent by the library and written back, as it came, to a
    device running the callback of the README is printed as that note: a
    READY sender notifies 80 80 and a three-byte message, the write of
    these five bytes invokes the registered callback with the three bytes,
    and [midi_callback] splits the status byte back into the message type
    and the channel modulo 16, printing a Note On line for
    [rokot_ble_midi_note_on] and a Note Off line for
    [rokot_ble_midi_note_off]. *)
Theorem note_loopback
    (T : transport) (bat_cccd midi_val midi_cccd con mode off channel note velocity : Z)
    (f : nat) (tx rx : statics) :
  rokot_ble_midi_is_ready tx = true ->
  att_server_can_send_packet_now T (con_handle tx) = true ->
  midi_val <> bat_cccd ->
  midi_val <> midi_cccd ->
  rx_callback rx = Some f ->
  let write value :=
    calls (run (att_write_callback bat_cccd midi_val midi_cccd
                  con midi_val mode off value (Z.of_nat (length value))) rx) in
  let ch := channel mod 16 in
  let n := note mod 128 in
  let v := velocity mod 128 in
  (calls (run (rokot_ble_midi_note_on T midi_val channel note velocity) tx)
   = [att_server_notify (con_handle tx) midi_val [0x80; 0x80; 0x90 + ch; n; v]] /\
   write [0x80; 0x80; 0x90 + ch; n; v] = [rx_callback_call f (0x90 + ch) n v] /\
   midi_callback (0x90 + ch) n v = [printf_note_on ch n v]) /\
  (calls (run (rokot_ble_midi_note_off T midi_val channel note) tx)
   = [att_server_notify (con_handle tx) midi_val [0x80; 0x80; 0x80 + ch; n; 0]] /\
   write [0x80; 0x80; 0x80 + ch; n; 0] = [rx_callback_call f (0x80 + ch) n 0] /\
   midi_callback (0x80 + ch) n 0 = [printf_note_off ch n]).
Proof.
  intros Hr Hc Hb Hcc Hf write ch n v. subst write.
  assert (Hch : 0 <= ch < 16) by (apply Z.mod_pos_bound; lia).
  assert (Hon : note_on_midi channel note velocity = [0x90 + ch; n; v]).
  { unfold note_on_midi, MIDI_NOTE_ON. rewrite !land_0x7F.
    pose proof (status_byte 9 channel ltac:(lia)) as H9.
    change (16 * 9) with 0x90 in H9. rewrite H9. reflexivity. }
  assert (Hoff : note_off_midi channel note = [0x80 + ch; n; 0]).
  { unfold note_off_midi, MIDI_NOTE_OFF. rewrite !land_0x7F.
    pose proof (status_byte 8 channel ltac:(lia)) as H8.
    change (16 * 8) with 0x80 in H8. rewrite H8. reflexivity. }
  destruct (channel_nibbles 9 ch ltac:(lia) Hch) as [Ht9 Hc9].
  destruct (channel_nibbles 8 ch ltac:(lia) Hch) as [Ht8 Hc8].
  change (16 * 9) with 0x90 in Ht9, Hc9. change (16 * 8) with 0x80 in Ht8, Hc8.
  split; (split; [|split]).
  - unfold rokot_ble_midi_note_on.
    rewrite <- Hon.
    apply (send_midi_internal_ready T midi_val (note_on_midi channel note velocity) tx
             Hr Hc).
    simpl. lia.
  - rewrite att_write_callback_midi_value by assumption. rewrite Hf. reflexivity.
  - unfold midi_callback. rewrite Ht9, Hc9. reflexivity.
  - unfold rokot_ble_midi_note_off.
    rewrite <- Hoff.
    apply (send_midi_internal_ready T midi_val (note_off_midi channel note) tx Hr Hc).
    simpl. lia.
  - rewrite att_write_callback_midi_value by assumption. rewrite Hf. reflexivity.
  - unfold midi_callback. rewrite Ht8, Hc8. reflexivity.
Qed.

Lemma note_loopback_witness :
  let T := mk_transport (fun _ => true) (fun _ _ _ => 0) 0 in
  let tx := set_con_handle 64 (set_notifications_enabled true ble_midi_state) in
  let rx := set_rx_callback (Some 7%nat) ble_midi_state in
  calls (run (rokot_ble_midi_note_on T 13 17 60 228) tx)
  = [att_server_notify 64 13 [0x80; 0x80; 0x91; 60; 100]] /\
  calls (run (att_write_callback 11 13 14 65 13 0 0 [0x80; 0x80; 0x91; 60; 100] 5) rx)
  = [rx_callback_call 7 0x91 60 100] /\
  midi_callback 0x91 60 100 = [printf_note_on 1 60 100].
Proof.
  intros T tx rx.
  destruct (note_loopback T 11 13 14 65 0 0 17 60 228 7 tx rx)
    as [(Hsend & Hwrite & Hprint) _];
    [reflexivity | reflexivity | discriminate | discriminate | reflexivity |].
  split; [exact Hsend|]. split; [exact Hwrite | exact Hprint].
Defined.

(** ** Which connection is notified *)

(** X19. There is one connection handle, and the latest event to record
    one decides where notifications go: with the MIDI gate enabled, a
    further link-complete event, or a Battery CCCD write from another
    connection, leaves the gate enabled and redirects every following send
    to the handle it carries. *)
Theorem latest_handle_wins
    (T : transport) (bat_cccd midi_val midi_cccd channel size h interval c mode off
       bsize : Z)
    (buffer : list Z) (q : send_request) (s : statics) :
  notifications_enabled s = true ->
  h <> HCI_CON_HANDLE_INVALID ->
  c <> HCI_CON_HANDLE_INVALID ->
  att_server_can_send_packet_now T h = true ->
  att_server_can_send_packet_now T c = true ->
  raw_length_invalid q = false ->
  let s1 := final (run (packet_handler HCI_EVENT_PACKET channel
                          (HCI_SUBEVENT_LE_CONNECTION_COMPLETE h interval) size) s) in
  let s2 := final (run (att_write_callback bat_cccd midi_val midi_cccd
                          c bat_cccd mode off buffer bsize) s) in
  calls (run (perform T midi_val q) s1) = [att_server_notify h midi_val (wire_packet q)] /\
  calls (run (perform T midi_val q) s2) = [att_server_notify c midi_val (wire_packet q)].
Proof.
  intros Hn Hh Hc Hsh Hsc Hq s1 s2. subst s1 s2.
  rewrite packet_handler_connection_complete, att_write_callback_battery_cccd.
  rewrite !perform_wire, Hq. unfold final, rokot_ble_midi_is_ready. cbn [fst snd].
  simpl. rewrite Hn, Hsh, Hsc.
  rewrite (proj2 (Z.eqb_neq _ _) Hh), (proj2 (Z.eqb_neq _ _) Hc).
  split; reflexivity.
Qed.

Lemma latest_handle_wins_witness :
  let T := mk_transport (fun _ => true) (fun _ _ _ => 0) 0 in
  let s := set_con_handle 64 (set_notifications_enabled true ble_midi_state) in
  let s1 := final (run (packet_handler HCI_EVENT_PACKET 0
                          (HCI_SUBEVENT_LE_CONNECTION_COMPLETE 65 24) 19) s) in
  calls (run (perform T 13 (note_on 0 60 100)) s)
  = [att_server_notify 64 13 [0x80; 0x80; 0x90; 60; 100]] /\
  calls (run (perform T 13 (note_on 0 60 100)) s1)
  = [att_server_notify 65 13 [0x80; 0x80; 0x90; 60; 100]].
Proof.
  intros T s s1. split; [reflexivity|].
  destruct (latest_handle_wins T 11 13 14 0 19 65 24 66 0 0 2 [0x01; 0x00]
              (note_on 0 60 100) s) as [H _];
    [reflexivity | discriminate | discriminate | reflexivity | reflexivity
     | reflexivity |].
  exact H.
Defined.

(** ** After a disconnect *)

(** X20. After a disconnect event nothing is notified: whatever the state
    was, every send returns -1 and [rokot_ble_midi_set_battery_level] makes
    no call. A link-complete event alone does not change this; the client
    has to write the CCCD again. *)
Theorem disconnect_silences
    (T : transport) (bat_val midi_val channel size h interval level : Z)
    (q : send_request) (s : statics) :
  let s1 := final (run (packet_handler HCI_EVENT_PACKET channel
                          HCI_EVENT_DISCONNECTION_COMPLETE size) s) in
  let s2 := final (run (packet_handler HCI_EVENT_PACKET channel
                          (HCI_SUBEVENT_LE_CONNECTION_COMPLETE h interval) size) s1) in
  run (perform T midi_val q) s1 = (-1, s1, []) /\
  calls (run (rokot_ble_midi_set_battery_level T bat_val level) s1) = [] /\
  run (perform T midi_val q) s2 = (-1, s2, []) /\
  calls (run (rokot_ble_midi_set_battery_level T bat_val level) s2) = [].
Proof.
  intros s1 s2. subst s2 s1.
  rewrite packet_handler_connection_complete, packet_handler_disconnection.
  rewrite !perform_wire, !set_battery_level_eq.
  unfold final, calls. cbn [fst snd].
  destruct (raw_length_invalid q); repeat split.
Qed.

(** ** The encoder and its buffer *)

(** X21. For a buffer that has room for the two-byte prefix and [n]
    message bytes, [encode_ble_midi_packet] returns [n + 2] and leaves the
    buffer holding 80 80, the first [n] bytes of the message, and behind
    them what the buffer held before: it writes [n + 2] bytes and does not
    change the size of the buffer. *)
Theorem encode_ble_midi_packet_frame (dst midi : list Z) (n : nat) :
  (n + 2 <= length dst)%nat ->
  (n <= length midi)%nat ->
  (n <= 255)%nat ->
  encode_ble_midi_packet dst midi (Z.of_nat n)
  = (0x80 :: 0x80 :: take n midi ++ drop (n + 2) dst, Z.of_nat n + 2) /\
  length (encode_ble_midi_packet dst midi (Z.of_nat n)).1 = length dst.
Proof.
  intros Hdst Hmidi Hn. unfold encode_ble_midi_packet. cbn [fst].
  rewrite u16_small by lia. rewrite Nat2Z.id.
  split.
  - f_equal.
    rewrite memcpy_take_drop by (rewrite ?length_insert; lia).
    destruct dst as [|d0 [|d1 dst]]; [simpl in Hdst; lia ..|].
    replace (n + 2)%nat with (2 + n)%nat by lia.
    reflexivity.
  - rewrite memcpy_length, !length_insert. reflexivity.
Qed.

Lemma encode_ble_midi_packet_frame_witness :
  encode_ble_midi_packet [1; 2; 3; 4; 5; 6] [0xC0; 0x05; 0x77] 2
  = ([0x80; 0x80; 0xC0; 0x05; 5; 6], 4).
Proof.
  destruct (encode_ble_midi_packet_frame [1; 2; 3; 4; 5; 6] [0xC0; 0x05; 0x77] 2)
    as [H _]; [simpl; lia | simpl; lia | lia |].
  exact H.
Defined.
